(** * cs50.sql: a shallow embedding of [SQL.execute] and its literal renderer

    The Python module [src/cs50/sql.py] wraps SQLAlchemy: it renders every
    bound parameter as an inlined SQL literal (a dispatch on the run-time type
    of the value), compiles one statement string, hands it to the engine and
    shapes the return value after the leading keyword of the statement.

    The embedding keeps the code of the module and takes SQLAlchemy (dialect,
    statement compiler, engine, result proxy) as an interface: a record whose
    fields are the calls the module makes. *)

From Stdlib Require Import String Ascii List ZArith Bool Lia.
From Stdlib Require Import DecimalString DecimalPos DecimalZ.
From Stdlib Require Import PrimFloat SpecFloat FloatOps.
Import ListNotations.

Local Open Scope string_scope.
Local Open Scope Z_scope.

Set Warnings "-register-all".

(** ** Python values, classes and exceptions *)

Module Py.

(** [datetime.date], [datetime.time] and [datetime.datetime] (naive: no
    tzinfo).  A [datetime] carries the fields of a date and of a time. *)
Record date := mkdate { year : Z; month : Z; day : Z }.
Record time := mktime { hour : Z; minute : Z; second : Z; microsecond : Z }.
Record datetime := mkdatetime { date_part : date; time_part : time }.

(** Python values that can reach [execute], as parameters or as results.
    [PyObject] stands for an instance of any class that is none of the
    classes below nor a subclass of one of them (bytes, Decimal, tuple...).
    [PyLong] is Python 2's [long]; Python 3 has no such values. *)
Inductive PyValue :=
| PyNone
| PyBool (b : bool)
| PyInt (n : Z)
| PyLong (n : Z)
| PyFloat (f : float)
| PyStr (s : string)
| PyDate (d : date)
| PyDatetime (dt : datetime)
| PyTime (t : time)
| PyNull                                   (* sqlalchemy.sql.elements.Null *)
| PyList (items : list PyValue)
| PyDict (items : list (string * PyValue))
| PyObject (class_name : string).

Inductive PyType :=
| Tbool | Tint | Tlong | Tfloat | Tstr | Tdate | Tdatetime | Ttime
| TNull | TNoneType | Tlist | Tdict | Tobject (class_name : string).

Definition type_ (v : PyValue) : PyType :=
  match v with
  | PyNone => TNoneType
  | PyBool _ => Tbool
  | PyInt _ => Tint
  | PyLong _ => Tlong
  | PyFloat _ => Tfloat
  | PyStr _ => Tstr
  | PyDate _ => Tdate
  | PyDatetime _ => Tdatetime
  | PyTime _ => Ttime
  | PyNull => TNull
  | PyList _ => Tlist
  | PyDict _ => Tdict
  | PyObject c => Tobject c
  end.

Definition PyType_eqb (a b : PyType) : bool :=
  match a, b with
  | Tbool, Tbool | Tint, Tint | Tlong, Tlong | Tfloat, Tfloat
  | Tstr, Tstr | Tdate, Tdate | Tdatetime, Tdatetime | Ttime, Ttime
  | TNull, TNull | TNoneType, TNoneType | Tlist, Tlist | Tdict, Tdict => true
  | Tobject c, Tobject c' => String.eqb c c'
  | _, _ => false
  end.

(** The class hierarchy of the standard library, as far as the module's
    [isinstance] tests can see it: [bool] derives from [int] and
    [datetime.datetime] derives from [datetime.date]. *)
Definition issubclass (c k : PyType) : bool :=
  PyType_eqb c k ||
  match c, k with
  | Tbool, Tint => true
  | Tdatetime, Tdate => true
  | _, _ => false
  end.

Definition isinstance (v : PyValue) (k : PyType) : bool :=
  issubclass (type_ v) k.

(** Exceptions.  Every class listed derives from [Exception]. *)
Inductive ExcClass :=
| RuntimeError | TypeError | IndexError | AttributeError
| ArgumentError | IntegrityError | OperationalError | ProgrammingError
| ResourceClosedError | SAWarning | OtherException (class_name : string).

Inductive Exception :=
| mkException (cls : ExcClass) (args : string) (cause : option Exception).

Definition exc_class (e : Exception) : ExcClass :=
  let '(mkException c _ _) := e in c.
Definition exc_args (e : Exception) : string :=
  let '(mkException _ a _) := e in a.
Definition __cause__ (e : Exception) : option Exception :=
  let '(mkException _ _ c) := e in c.

(** [e.__cause__ = None] *)
Definition clear_cause (e : Exception) : Exception :=
  mkException (exc_class e) (exc_args e) None.

Definition is_IntegrityError (e : Exception) : bool :=
  match exc_class e with IntegrityError => true | _ => false end.

(** The outcome of a Python expression: a value or a raised exception. *)
Inductive Outcome (A : Type) :=
| Return (a : A)
| Raise (e : Exception).
Arguments Return {A} a.
Arguments Raise {A} e.

Definition obind {A B} (o : Outcome A) (k : A -> Outcome B) : Outcome B :=
  match o with
  | Return a => k a
  | Raise e => Raise e
  end.

(** A list comprehension [[f(v) for v in l]]: elements left to right, the
    first exception ends it. *)
Fixpoint comprehension {A B} (f : A -> Outcome B) (l : list A)
  : Outcome (list B) :=
  match l with
  | [] => Return []
  | v :: l' =>
      obind (f v) (fun s =>
      obind (comprehension f l') (fun ss => Return (s :: ss)))
  end.

(** *** [strftime] *)

Record struct_time := mktm {
  tm_year : Z; tm_mon : Z; tm_mday : Z;
  tm_hour : Z; tm_min : Z; tm_sec : Z }.

Definition digit (z : Z) : ascii :=
  ascii_of_nat (48 + Z.to_nat (z mod 10)).

(** [z] in decimal on [width] digits, zero-filled on the left. *)
Fixpoint zero_pad (width : nat) (z : Z) : string :=
  match width with
  | O => ""
  | S w => zero_pad w (z / 10) ++ String (digit z) ""
  end.

(** [str(z)] of an integer: its decimal digits, after a sign when it is
    negative. *)
Definition decimal (z : Z) : string :=
  DecimalString.NilZero.string_of_int (Z.to_int z).

(** The directives of the three formats the module uses.  [%m], [%d], [%H],
    [%M] and [%S] are zero-filled on two digits; [%Y] is the year in decimal
    without fill, as the C library gives it: the year 999 is [999]. *)
Definition directive (tt : struct_time) (d : ascii) : string :=
  if (d =? "Y")%char then decimal (tm_year tt)
  else if (d =? "m")%char then zero_pad 2 (tm_mon tt)
  else if (d =? "d")%char then zero_pad 2 (tm_mday tt)
  else if (d =? "H")%char then zero_pad 2 (tm_hour tt)
  else if (d =? "M")%char then zero_pad 2 (tm_min tt)
  else if (d =? "S")%char then zero_pad 2 (tm_sec tt)
  else if (d =? "%")%char then "%"
  else String "%" (String d "").

Fixpoint format_time (tt : struct_time) (fmt : string) : string :=
  match fmt with
  | EmptyString => EmptyString
  | String c rest =>
      if (c =? "%")%char then
        match rest with
        | String d rest' => directive tt d ++ format_time tt rest'
        | EmptyString => "%"
        end
      else String c (format_time tt rest)
  end.

(** [timetuple()] of the three classes; [time.strftime] formats on the
    date 1900-01-01. *)
Definition date_timetuple (d : date) : struct_time :=
  mktm (year d) (month d) (day d) 0 0 0.
Definition time_timetuple (t : time) : struct_time :=
  mktm 1900 1 1 (hour t) (minute t) (second t).
Definition datetime_timetuple (dt : datetime) : struct_time :=
  mktm (year (date_part dt)) (month (date_part dt)) (day (date_part dt))
       (hour (time_part dt)) (minute (time_part dt)) (second (time_part dt)).

(** [value.strftime(fmt)]: the method of the value's own class. *)
Definition strftime (value : PyValue) (fmt : string) : Outcome string :=
  match value with
  | PyDate d => Return (format_time (date_timetuple d) fmt)
  | PyDatetime dt => Return (format_time (datetime_timetuple dt) fmt)
  | PyTime t => Return (format_time (time_timetuple t) fmt)
  | _ => Raise (mkException AttributeError "strftime" None)
  end.

(** A [dict] keeps its keys in insertion order; assigning to a key that is
    present replaces the value in place. *)
Fixpoint dict_setitem (d : list (string * PyValue)) (k : string) (v : PyValue)
  : list (string * PyValue) :=
  match d with
  | [] => [(k, v)]
  | (k', v') :: d' =>
      if String.eqb k' k then (k', v) :: d'
      else (k', v') :: dict_setitem d' k v
  end.

(** [dict(items)] *)
Definition dict (items : list (string * PyValue)) : PyValue :=
  PyDict (fold_left (fun d kv => dict_setitem d (fst kv) (snd kv)) items []).

End Py.
Import Py.

(** ** Regular expressions: the fragment of [re] the module uses

    Characters are code points below 256, and every statement about texts
    below is about texts of such characters.  On them [\s] and [re.I] are as
    defined here.  Above 255, which a [string] cannot hold, [re.I] lets
    U+017F match the letter S and U+0130 and U+0131 match the letter I, and
    [\s] has further spaces.  A pattern is matched with Brzozowski
    derivatives. *)

Module Re.

Inductive regex :=
| Never
| Empty
| Char (p : ascii -> bool)
| Seq (r1 r2 : regex)
| Alt (r1 r2 : regex)
| Star (r : regex).

Fixpoint nullable (r : regex) : bool :=
  match r with
  | Never => false
  | Empty => true
  | Char _ => false
  | Seq r1 r2 => nullable r1 && nullable r2
  | Alt r1 r2 => nullable r1 || nullable r2
  | Star _ => true
  end.

Fixpoint deriv (c : ascii) (r : regex) : regex :=
  match r with
  | Never => Never
  | Empty => Never
  | Char p => if p c then Empty else Never
  | Seq r1 r2 =>
      if nullable r1 then Alt (Seq (deriv c r1) r2) (deriv c r2)
      else Seq (deriv c r1) r2
  | Alt r1 r2 => Alt (deriv c r1) (deriv c r2)
  | Star r1 => Seq (deriv c r1) (Star r1)
  end.

(** The words of a pattern. *)
Inductive matches : regex -> string -> Prop :=
| MEmpty : matches Empty ""
| MChar p c : p c = true -> matches (Char p) (String c "")
| MSeq r1 r2 s1 s2 :
    matches r1 s1 -> matches r2 s2 -> matches (Seq r1 r2) (s1 ++ s2)
| MAltL r1 r2 s : matches r1 s -> matches (Alt r1 r2) s
| MAltR r1 r2 s : matches r2 s -> matches (Alt r1 r2) s
| MStar0 r : matches (Star r) ""
| MStarS r s1 s2 :
    matches r s1 -> matches (Star r) s2 -> matches (Star r) (s1 ++ s2).

(** [re.search(pattern, s)] for a pattern that starts with [^] (and without
    [re.MULTILINE]): does some prefix of [s] match?  The module only tests
    the result for truth. *)
Fixpoint search_anchored (r : regex) (s : string) : bool :=
  nullable r ||
  match s with
  | EmptyString => false
  | String c s' => search_anchored (deriv c r) s'
  end.

(** [\s] on a [str] pattern, for code points below 256: TAB, LF, VT, FF, CR,
    FS, GS, RS, US, space, NEL and NBSP. *)
Definition isspace (c : ascii) : bool :=
  let n := N_of_ascii c in
  ((9 <=? n) && (n <=? 13) || (28 <=? n) && (n <=? 32)
   || (n =? 133) || (n =? 160))%N.

Definition lower (c : ascii) : ascii :=
  let n := N_of_ascii c in
  if ((65 <=? n) && (n <=? 90))%N then ascii_of_N (n + 32) else c.

(** A literal character under [re.I]. *)
Definition char_i (c : ascii) : regex :=
  Char (fun x => Ascii.eqb (lower x) (lower c)).

Fixpoint literal_i (s : string) : regex :=
  match s with
  | EmptyString => Empty
  | String c s' => Seq (char_i c) (literal_i s')
  end.

Definition ws : regex := Char isspace.
Definition plus (r : regex) : regex := Seq r (Star r).

(** [r"^\s*SELECT\s+"], [r"^\s*INSERT\s+"] and [r"^\s*(?:DELETE|UPDATE)\s+"],
    all compiled with [re.I]. *)
Definition SELECT_re : regex :=
  Seq (Star ws) (Seq (literal_i "SELECT") (plus ws)).
Definition INSERT_re : regex :=
  Seq (Star ws) (Seq (literal_i "INSERT") (plus ws)).
Definition DELETE_UPDATE_re : regex :=
  Seq (Star ws) (Seq (Alt (literal_i "DELETE") (literal_i "UPDATE")) (plus ws)).

End Re.

(** ** The SQLAlchemy interface *)

Module SQLAlchemy.

(** What [sqlalchemy.types.T().literal_processor(dialect)] is for the five
    types the module asks for: a function from the value to its literal. *)
Record Dialect := mkDialect {
  Boolean_literal_processor : PyValue -> string;
  String_literal_processor : PyValue -> string;
  Float_literal_processor : PyValue -> string;
  Integer_literal_processor : PyValue -> string;
  NullType_literal_processor : PyValue -> string }.

(** A row of a result: its fields in column order. *)
Definition RowProxy := list (string * PyValue).

Record ResultProxy := mkResult {
  fetchall : Outcome (list RowProxy);
  first : Outcome (option RowProxy);
  lastrowid : PyValue;
  rowcount : Z }.

(** [engine.execute] receives a plain string or a [text()] clause. *)
Inductive Executable (TextClause : Type) :=
| Plain (statement : string)
| Clause (clause : TextClause).
Arguments Plain {TextClause} statement.
Arguments Clause {TextClause} clause.

(** The calls the module makes.  [Connection] is the state of the database
    behind the engine; [compile] is [statement.compile(compile_kwargs=
    {"literal_binds": True})] followed by [str], given the method
    [process_literal_param] of the type of the bound parameters, which it
    calls with a value and the dialect it compiles for. *)
Record Library := mkLibrary {
  Connection : Type;
  TextClause : Type;
  text : string -> TextClause;
  bindparams : TextClause -> string -> PyValue -> Outcome TextClause;
  compile :
    TextClause -> (PyValue -> Dialect -> Outcome string) -> Outcome string;
  engine_execute :
    Executable TextClause -> Connection -> Outcome ResultProxy * Connection;
  get_backend_name : string }.

End SQLAlchemy.

(** ** The module [cs50.sql] *)

Module SQL.
Import SQLAlchemy.

Section Literal.

(** [sys.version_info.major] *)
Variable version_info_major : Z.

Definition unsupported_value : Exception :=
  mkException RuntimeError "unsupported value" None.

(** [process(value)]: render a literal value, escaping as needed. *)
Definition process (dialect : Dialect) (value : PyValue) : Outcome string :=
  (* bool *)
  if isinstance value Tbool then
    Return (Boolean_literal_processor dialect value)
  (* datetime.date *)
  else if isinstance value Tdate then
    obind (strftime value "%Y-%m-%d") (fun s =>
    Return (String_literal_processor dialect (PyStr s)))
  (* datetime.datetime *)
  else if isinstance value Tdatetime then
    obind (strftime value "%Y-%m-%d %H:%M:%S") (fun s =>
    Return (String_literal_processor dialect (PyStr s)))
  (* datetime.time *)
  else if isinstance value Ttime then
    obind (strftime value "%H:%M:%S") (fun s =>
    Return (String_literal_processor dialect (PyStr s)))
  (* float *)
  else if isinstance value Tfloat then
    Return (Float_literal_processor dialect value)
  (* int *)
  else if isinstance value Tint then
    Return (Integer_literal_processor dialect value)
  (* long *)
  else if negb (version_info_major =? 3) && isinstance value Tlong then
    Return (Integer_literal_processor dialect value)
  (* str *)
  else if isinstance value Tstr then
    Return (String_literal_processor dialect value)
  (* None *)
  else if isinstance value TNull then
    Return (NullType_literal_processor dialect value)
  (* unsupported value *)
  else Raise unsupported_value.

(** [UserDefinedType.process_literal_param(self, value, dialect)]: process
    value(s), separating with commas as needed.  [type(value) is list] holds
    of the values [PyList _] and of no other. *)
Definition process_literal_param (value : PyValue) (dialect : Dialect)
  : Outcome string :=
  match value with
  | PyList items =>
      obind (comprehension (process dialect) items) (fun literals =>
      Return (String.concat ", " literals))
  | _ => process dialect value
  end.

End Literal.

Section Execute.

Variable sa : Library.
Variable version_info_major : Z.

(** What a call can change: the database behind the engine and the records
    of [self.logger]. *)
Record World := mkWorld {
  connection : Connection sa;
  debug_log : list string }.

(** Computations that read and change the world and may raise. *)
Definition M (A : Type) : Type := World -> Outcome A * World.

Definition ret {A} (a : A) : M A := fun w => (Return a, w).

Definition bind {A B} (m : M A) (k : A -> M B) : M B :=
  fun w =>
    match m w with
    | (Return a, w') => k a w'
    | (Raise e, w') => (Raise e, w')
    end.

Definition lift {A} (o : Outcome A) : M A := fun w => (o, w).

Notation "x <- m ;; k" := (bind m (fun x => k))
  (at level 61, m at next level, right associativity).

(** [self.engine.execute(statement)] *)
Definition self_engine_execute (statement : Executable (TextClause sa))
  : M ResultProxy :=
  fun w =>
    let (o, c) := engine_execute sa statement (connection w) in
    (o, mkWorld c (debug_log w)).

(** [self.logger.debug(statement)] *)
Definition self_logger_debug (statement : string) : M unit :=
  fun w => (Return tt, mkWorld (connection w) (debug_log w ++ [statement])%list).

(** The loop over [params.items()]: translate [None] to NULL, bind the
    parameter with the type [UserDefinedType]. *)
Fixpoint bind_parameters (statement : TextClause sa)
    (items : list (string * PyValue)) : Outcome (TextClause sa) :=
  match items with
  | [] => Return statement
  | (key, value) :: items' =>
      let value := match value with PyNone => PyNull | _ => value end in
      obind (bindparams sa statement key value) (fun statement =>
      bind_parameters statement items')
  end.

(** [row[0]] of [result.first()], which is [None] when there is no row. *)
Definition getitem0 (row : option RowProxy) : Outcome PyValue :=
  match row with
  | None =>
      Raise (mkException TypeError "'NoneType' object is not subscriptable" None)
  | Some [] => Raise (mkException IndexError "0" None)
  | Some ((_, v) :: _) => Return v
  end.

(** The body of the [try] statement of [execute]. *)
Definition execute_try (text : string) (params : list (string * PyValue))
  : M PyValue :=
  (* construct a new TextClause clause, iterate over parameters *)
  statement <- lift (bind_parameters (SQLAlchemy.text sa text) params) ;;
  (* stringify bound parameters *)
  statement <- lift (compile sa statement
                       (process_literal_param version_info_major)) ;;
  (* execute statement *)
  result <- self_engine_execute (Plain statement) ;;
  (* log statement *)
  _ <- self_logger_debug statement ;;
  (* if SELECT (or INSERT with RETURNING), return result set as list of dict
     objects *)
  if Re.search_anchored Re.SELECT_re statement then
    rows <- lift (fetchall result) ;;
    ret (PyList (map dict rows))
  (* if INSERT, return primary key value for a newly inserted row *)
  else if Re.search_anchored Re.INSERT_re statement then
    if String.eqb (get_backend_name sa) "postgresql" then
      result <- self_engine_execute
                  (Clause (SQLAlchemy.text sa "SELECT LASTVAL()")) ;;
      row <- lift (first result) ;;
      lift (getitem0 row)
    else
      ret (lastrowid result)
  (* if DELETE or UPDATE, return number of rows matched *)
  else if Re.search_anchored Re.DELETE_UPDATE_re statement then
    ret (PyInt (rowcount result))
  (* if some other statement, return True unless exception *)
  else ret (PyBool true).

(** [SQL.execute(self, text, **params)]: the [try] statement with its two
    handlers.  [warnings.filterwarnings("error")] comes first: the library
    raises its warnings, and they are among the exceptions of the
    interface. *)
Definition execute (text : string) (params : list (string * PyValue))
  : M PyValue :=
  fun w =>
    match execute_try text params w with
    | (Return v, w') => (Return v, w')
    | (Raise e, w') =>
        (* if constraint violated, return None *)
        if is_IntegrityError e then (Return PyNone, w')
        (* else raise exception *)
        else (Raise (clear_cause e), w')
    end.

End Execute.

End SQL.

(** ** A small instance of the interface, to run the module on

    A dialect that quotes text by doubling the apostrophe, and an engine that
    answers from a script (a function of the statement text) and keeps the
    journal of the statements it received. *)

Module Sample.
Import SQLAlchemy.

Fixpoint escape_quotes (s : string) : string :=
  match s with
  | EmptyString => EmptyString
  | String c s' =>
      if (c =? "'")%char then String "'" (String "'" (escape_quotes s'))
      else String c (escape_quotes s')
  end.

Definition quote (s : string) : string :=
  String "'" (escape_quotes s ++ "'").

Definition str_int (n : Z) : string :=
  DecimalString.NilZero.string_of_int (Z.to_int n).

(** In place of [repr]: the float written exactly, as an integer mantissa
    and a power of two. *)
Definition str_float (f : float) : string :=
  match Prim2SF f with
  | S754_zero false => "0.0"
  | S754_zero true => "-0.0"
  | S754_infinity false => "inf"
  | S754_infinity true => "-inf"
  | S754_nan => "nan"
  | S754_finite s m e =>
      (if s then "-" else "") ++ str_int (Zpos m) ++ "*2**" ++ str_int e
  end.

Definition dialect : Dialect := {|
  Boolean_literal_processor v :=
    match v with PyBool true => "true" | _ => "false" end;
  String_literal_processor v :=
    match v with PyStr s => quote s | _ => quote "" end;
  Float_literal_processor v :=
    match v with PyFloat f => str_float f | _ => "0.0" end;
  Integer_literal_processor v :=
    match v with PyInt n | PyLong n => str_int n | _ => "0" end;
  NullType_literal_processor _ := "NULL" |}.

Record clause := mkclause { sql : string; binds : list (string * PyValue) }.

(** The bound parameters of a text, as the pattern of [text()] finds them:
    a colon and a name, [(?<![:\w\x5c]):(\w+)(?!:)].  Names are made of
    ASCII letters, digits and [_]. *)
Definition name_char (c : ascii) : bool :=
  let n := N_of_ascii c in
  ((48 <=? n) && (n <=? 57) || (65 <=? n) && (n <=? 90)
   || (97 <=? n) && (n <=? 122) || (n =? 95))%N.

Inductive token :=
| Lit (c : ascii)
| Bind (name : string).

Fixpoint init_last (s : string) : option (string * ascii) :=
  match s with
  | EmptyString => None
  | String c EmptyString => Some (EmptyString, c)
  | String c s' =>
      match init_last s' with
      | Some (i, l) => Some (String c i, l)
      | None => None
      end
  end.

(** A name that a colon follows: [(?!:)] makes the pattern give back the
    last character of the name, and fail when the name has one character. *)
Definition close_before_colon (name : string) : list token :=
  match init_last name with
  | Some (String a i, l) => [Bind (String a i); Lit l]
  | Some (EmptyString, l) => [Lit ":"; Lit l]
  | None => [Lit ":"]
  end.

(** [prev] is the character before; [cur] the name being read, if any. *)
Fixpoint scan (prev : ascii) (cur : option string) (s : string)
  : list token :=
  match s with
  | EmptyString =>
      match cur with Some name => [Bind name] | None => [] end
  | String c s' =>
      match cur with
      | Some name =>
          if name_char c then scan c (Some (name ++ String c "")) s'
          else if (c =? ":")%char
               then (close_before_colon name ++ Lit c :: scan c None s')%list
               else Bind name :: Lit c :: scan c None s'
      | None =>
          if (c =? ":")%char
             && match s' with String x _ => name_char x | EmptyString => false end
             && negb ((prev =? ":")%char || name_char prev
                      || (prev =? ascii_of_nat 92)%char)
          then scan c (Some EmptyString) s'
          else Lit c :: scan c None s'
      end
  end.

Definition tokens (statement : string) : list token := scan " " None statement.

Fixpoint lookup (name : string) (bs : list (string * PyValue))
  : option PyValue :=
  match bs with
  | [] => None
  | (k, v) :: bs' => if String.eqb k name then Some v else lookup name bs'
  end.

(** The statement with the literal of its value in place of every bound
    parameter, left to right; a parameter without a value cannot be
    rendered. *)
Fixpoint render (f : PyValue -> Dialect -> Outcome string)
    (bs : list (string * PyValue)) (ts : list token) : Outcome string :=
  match ts with
  | [] => Return EmptyString
  | Lit c :: ts' => obind (render f bs ts') (fun r => Return (String c r))
  | Bind name :: ts' =>
      match lookup name bs with
      | Some v =>
          obind (f v dialect) (fun literal =>
          obind (render f bs ts') (fun r => Return (literal ++ r)))
      | None =>
          Raise (mkException (OtherException "sqlalchemy.exc.CompileError")
                   name None)
      end
  end.

Definition defines (statement name : string) : bool :=
  existsb (fun t => match t with
                    | Bind n => String.eqb n name
                    | Lit _ => false
                    end) (tokens statement).

Definition scripted (backend : string)
    (script : string -> Outcome ResultProxy) : Library := {|
  Connection := list string;
  TextClause := clause;
  text s := mkclause s [];
  bindparams c k v :=
    if defines (sql c) k
    then Return (mkclause (sql c) (binds c ++ [(k, v)])%list)
    else Raise (mkException ArgumentError k None);
  compile c f := render f (binds c) (tokens (sql c));
  engine_execute e journal :=
    let s := match e with Plain s => s | Clause c => sql c end in
    (script s, (journal ++ [s])%list);
  get_backend_name := backend |}.

(** The result of a statement that returns rows, and of one that does not. *)
Definition rows_result (rows : list RowProxy) : ResultProxy :=
  mkResult (Return rows) (Return (hd_error rows)) PyNone (-1).

Definition closed : Exception :=
  mkException ResourceClosedError "This result object does not return rows" None.

Definition dml_result (rowid : PyValue) (count : Z) : ResultProxy :=
  mkResult (Raise closed) (Raise closed) rowid count.

Definition no_such_statement : Exception :=
  mkException OperationalError "not in the script"
    (Some (mkException (OtherException "sqlite3.OperationalError") "" None)).

Definition duplicate_key : Exception :=
  mkException IntegrityError "UNIQUE constraint failed"
    (Some (mkException (OtherException "sqlite3.IntegrityError") "" None)).

(** A table [t(id, name)] that holds one row, as the statements below see
    it. *)
Definition script (s : string) : Outcome ResultProxy :=
  if String.eqb s "SELECT * FROM t" then
    Return (rows_result [[("id", PyInt 1); ("name", PyStr "a")]])
  else if String.eqb s "SELECT*FROM t" then
    Return (rows_result [[("id", PyInt 1); ("name", PyStr "a")]])
  else if String.eqb s "SELECT * FROM t WHERE id = 7" then
    Return (rows_result [])
  else if String.eqb s "INSERT INTO t (name) VALUES ('b')" then
    Return (dml_result (PyInt 2) 1)
  else if String.eqb s "INSERT INTO t (id) VALUES (1)" then
    Raise duplicate_key
  else if String.eqb s "SELECT LASTVAL()" then
    Return (rows_result [[("lastval", PyInt 2)]])
  else if String.eqb s "UPDATE t SET name = 'c' WHERE id = 7" then
    Return (dml_result PyNone 0)
  else if String.eqb s "DELETE FROM t WHERE id = 1" then
    Return (dml_result PyNone 1)
  else if String.eqb s "CREATE TABLE u (id INTEGER)" then
    Return (dml_result PyNone (-1))
  else Raise no_such_statement.

Definition sqlite : Library := scripted "sqlite" script.
Definition postgresql : Library := scripted "postgresql" script.

Definition world0 (sa : Library) (c : Connection sa) : SQL.World sa :=
  SQL.mkWorld sa c [].

End Sample.

(** ** Notions the properties are stated with *)

Module Spec.

Fixpoint lstrip (s : string) : string :=
  match s with
  | EmptyString => EmptyString
  | String c s' => if Re.isspace c then lstrip s' else s
  end.

(** [s] starts with the letters of [kw], in any case. *)
Fixpoint prefix_i (kw s : string) : bool :=
  match kw, s with
  | EmptyString, _ => true
  | String k kw', String c s' =>
      Ascii.eqb (Re.lower c) (Re.lower k) && prefix_i kw' s'
  | String _ _, EmptyString => false
  end.

Fixpoint drop (n : nat) (s : string) : string :=
  match n, s with
  | O, _ => s
  | S n', String _ s' => drop n' s'
  | S _, EmptyString => EmptyString
  end.

Fixpoint all_space (s : string) : bool :=
  match s with
  | EmptyString => true
  | String c s' => Re.isspace c && all_space s'
  end.

(** [s] is whitespace, then a word of the pattern [K], then a whitespace
    character, then anything. *)
Definition leading (K : Re.regex) (s : string) : Prop :=
  exists a k c q,
    s = a ++ k ++ String c q /\
    all_space a = true /\ Re.matches K k /\ Re.isspace c = true.

(** A character that continues an identifier: a letter, a digit or [_]. *)
Definition is_word (c : ascii) : bool :=
  let n := N_of_ascii c in
  ((48 <=? n) && (n <=? 57) || (65 <=? n) && (n <=? 90)
   || (97 <=? n) && (n <=? 122) || (n =? 95))%N.

(** The text begins, after optional leading whitespace, with the keyword
    [kw]: its letters in any case, not continued into a longer word. *)
Definition begins_with_keyword (kw s : string) : bool :=
  prefix_i kw (lstrip s) &&
  match drop (String.length kw) (lstrip s) with
  | EmptyString => true
  | String c _ => negb (is_word c)
  end.

(** The same, with the keyword followed by at least one whitespace
    character. *)
Definition keyword_then_space (kw s : string) : bool :=
  prefix_i kw (lstrip s) &&
  match drop (String.length kw) (lstrip s) with
  | EmptyString => false
  | String c _ => Re.isspace c
  end.

(** The class [execute] puts a compiled statement in: its chain of tests. *)
Inductive StatementClass := IsSelect | IsInsert | IsDeleteUpdate | IsOther.

Definition statement_class (statement : string) : StatementClass :=
  if Re.search_anchored Re.SELECT_re statement then IsSelect
  else if Re.search_anchored Re.INSERT_re statement then IsInsert
  else if Re.search_anchored Re.DELETE_UPDATE_re statement then IsDeleteUpdate
  else IsOther.

(** The statement [text] with [params] compiles to [statement] and the
    engine executes it without raising: it returns [result] and leaves the
    world [w'], where the statement is logged. *)
Definition executed (sa : SQLAlchemy.Library) (version_info_major : Z)
    (text : string) (params : list (string * PyValue)) (w : SQL.World sa)
    (statement : string) (result : SQLAlchemy.ResultProxy) (w' : SQL.World sa)
  : Prop :=
  exists clause,
    SQL.bind_parameters sa (SQLAlchemy.text sa text) params = Return clause /\
    SQLAlchemy.compile sa clause (SQL.process_literal_param version_info_major)
    = Return statement /\
    SQLAlchemy.engine_execute sa (SQLAlchemy.Plain statement)
      (SQL.connection sa w)
    = (Return result, SQL.connection sa w') /\
    SQL.debug_log sa w' = (SQL.debug_log sa w ++ [statement])%list.

(** The scalar kinds: boolean, date, datetime, time, float, integer, text
    and null (the NULL object [execute] puts in place of [None]); Python 2's
    [long] where it exists. *)
Definition supported_scalar (version_info_major : Z) (v : PyValue) : bool :=
  match v with
  | PyBool _ | PyDate _ | PyDatetime _ | PyTime _ | PyFloat _ | PyInt _
  | PyStr _ | PyNull => true
  | PyLong _ => negb (version_info_major =? 3)
  | _ => false
  end.

(** A scalar of a supported kind, or a list of such scalars. *)
Definition renderable (version_info_major : Z) (v : PyValue) : bool :=
  match v with
  | PyList items => forallb (supported_scalar version_info_major) items
  | _ => supported_scalar version_info_major v
  end.

(** The ranges the constructors of [datetime] enforce. *)
Definition valid_date (d : date) : Prop :=
  1 <= year d <= 9999 /\ 1 <= month d <= 12 /\ 1 <= day d <= 31.

Definition valid_time (t : time) : Prop :=
  0 <= hour t <= 23 /\ 0 <= minute t <= 59 /\ 0 <= second t <= 59 /\
  0 <= microsecond t <= 999999.

(** The values whose literal keeps all of the value: every boolean, float,
    integer, text and NULL, every date, and the times of a whole number of
    seconds. *)
Definition keeps_value (v : PyValue) : Prop :=
  match v with
  | PyBool _ | PyFloat _ | PyInt _ | PyStr _ | PyNull => True
  | PyDate d => valid_date d
  | PyTime t => valid_time t /\ microsecond t = 0
  | _ => False
  end.

(** A dialect with another processor for integers. *)
Definition with_Integer (d : SQLAlchemy.Dialect) (f : PyValue -> string)
  : SQLAlchemy.Dialect :=
  SQLAlchemy.mkDialect
    (SQLAlchemy.Boolean_literal_processor d)
    (SQLAlchemy.String_literal_processor d)
    (SQLAlchemy.Float_literal_processor d)
    f
    (SQLAlchemy.NullType_literal_processor d).

End Spec.

(** ** The constructor, and further notions *)

Module Constructor.
Import SQLAlchemy.

(** An instance of the class: [self.engine] and the name of [self.logger]. *)
Record SQL_object := mkSQL {
  self_engine : Library;
  self_logger : string }.

(** [SQL.__init__(self, url, **kwargs)], given [sqlalchemy.create_engine]:
    the engine is created inside a [try] whose one handler clears the cause
    of the exception and raises it again. *)
Definition __init__
    (create_engine : string -> list (string * PyValue) -> Outcome Library)
    (url : string) (kwargs : list (string * PyValue)) : Outcome SQL_object :=
  match create_engine url kwargs with
  | Return engine => Return (mkSQL engine "cs50.sql")
  | Raise e => Raise (clear_cause e)
  end.

End Constructor.

Module Notions.
Import SQLAlchemy.

(** The parameters as the loop of [execute] binds them: NULL for [None]. *)
Definition null_for_None (params : list (string * PyValue))
  : list (string * PyValue) :=
  map (fun kv => (fst kv, match snd kv with PyNone => PyNull | v => v end))
      params.

(** [text] with [params] binds and compiles to [statement]. *)
Definition compiles_to (sa : Library) (version_info_major : Z)
    (text : string) (params : list (string * PyValue)) (statement : string)
  : Prop :=
  exists clause,
    SQL.bind_parameters sa (SQLAlchemy.text sa text) params = Return clause /\
    compile sa clause (SQL.process_literal_param version_info_major)
    = Return statement.

(** The follow-up query of an INSERT on postgresql. *)
Definition lastval (sa : Library) : Executable (TextClause sa) :=
  Clause (SQLAlchemy.text sa "SELECT LASTVAL()").

Fixpoint map_string (f : ascii -> ascii) (s : string) : string :=
  match s with
  | EmptyString => EmptyString
  | String c s' => String (f c) (map_string f s')
  end.

(** Two texts that differ in the case of their letters only. *)
Definition same_letters (s s' : string) : Prop :=
  map_string Re.lower s = map_string Re.lower s'.

(** The first character after the leading whitespace is the first letter
    of one of the four keywords, in either case. *)
Definition keyword_initial (s : string) : bool :=
  match Spec.lstrip s with
  | EmptyString => false
  | String c _ =>
      let l := Re.lower c in
      (l =? "s")%char || (l =? "i")%char || (l =? "d")%char || (l =? "u")%char
  end.

(** A script for the sample engine with statements of no class, and a
    postgresql session in which no sequence was used. *)
Definition script2 (s : string) : Outcome ResultProxy :=
  if String.eqb s "WITH x AS (SELECT 1 AS one) SELECT one FROM x" then
    Return (Sample.rows_result [[("one", PyInt 1)]])
  else if String.eqb s "INSERT INTO t (name) VALUES ('b')" then
    Return (Sample.dml_result PyNone 1)
  else if String.eqb s "SELECT LASTVAL()" then
    Return (Sample.rows_result [])
  else if String.eqb s "SELECT name, id FROM t" then
    Return (Sample.rows_result [[("name", PyStr "a"); ("id", PyInt 1)]])
  else if String.eqb s "SELECT 1 INTO u" then
    Return (Sample.dml_result PyNone 1)
  else if String.eqb s "UPDATE`t`SET name = 'c'" then
    Return (Sample.dml_result PyNone 1)
  else Raise Sample.no_such_statement.

Definition sqlite2 : Library := Sample.scripted "sqlite" script2.
Definition postgresql2 : Library := Sample.scripted "postgresql" script2.

End Notions.

(** ** Reading back what the renderer hands to the dialect *)

Module ReadBack.
Import SQLAlchemy.

(** The literal processor of the dialect that [process] calls for a value
    of class [k]. *)
Definition processor_of (d : Dialect) (k : PyType) : PyValue -> string :=
  match k with
  | Tbool => Boolean_literal_processor d
  | Tfloat => Float_literal_processor d
  | Tint | Tlong => Integer_literal_processor d
  | TNull => NullType_literal_processor d
  | _ => String_literal_processor d
  end.

Definition digit_value (c : ascii) : option Z :=
  let n := Z.of_nat (nat_of_ascii c) in
  if (48 <=? n) && (n <=? 57) then Some (n - 48) else None.

Definition two_digits (c1 c0 : ascii) : option Z :=
  match digit_value c1, digit_value c0 with
  | Some a, Some b => Some (10 * a + b)
  | _, _ => None
  end.

(** [int(s)] of a decimal text. *)
Definition parse_decimal (s : string) : option Z :=
  option_map Z.of_int (DecimalString.NilZero.int_of_string s).

(** [s.split(c, 1)]: the text before the first [c] and the text after it. *)
Fixpoint split_on (c : ascii) (s : string) : option (string * string) :=
  match s with
  | EmptyString => None
  | String x s' =>
      if (x =? c)%char then Some (EmptyString, s')
      else
        match split_on c s' with
        | Some (a, b) => Some (String x a, b)
        | None => None
        end
  end.

(** A date read from its text [%Y-%m-%d]. *)
Definition parse_date (s : string) : option date :=
  match split_on "-" s with
  | Some (y, String m1 (String m0 (String sep
               (String d1 (String d0 EmptyString))))) =>
      if (sep =? "-")%char then
        match parse_decimal y, two_digits m1 m0, two_digits d1 d0 with
        | Some year, Some month, Some day => Some (mkdate year month day)
        | _, _, _ => None
        end
      else None
  | _ => None
  end.

(** A time read from its text [%H:%M:%S]: a whole number of seconds. *)
Definition parse_time (s : string) : option time :=
  match s with
  | String h1 (String h0 (String sep1 (String m1 (String m0 (String sep2
      (String s1 (String s0 EmptyString))))))) =>
      if (sep1 =? ":")%char && (sep2 =? ":")%char then
        match two_digits h1 h0, two_digits m1 m0, two_digits s1 s0 with
        | Some hour, Some minute, Some second =>
            Some (mktime hour minute second 0)
        | _, _, _ => None
        end
      else None
  | _ => None
  end.

(** The value of class [k] read back from what was handed to the
    processor of [k]: the Python value itself for a boolean, a float, an
    integer, a text and NULL, the text of the value for a date and a
    time. *)
Definition read_back (k : PyType) (handed : PyValue) : option PyValue :=
  match k, handed with
  | Tdate, PyStr s => option_map PyDate (parse_date s)
  | Ttime, PyStr s => option_map PyTime (parse_time s)
  | (Tbool | Tfloat | Tint | Tstr | TNull), v =>
      if PyType_eqb (type_ v) k then Some v else None
  | _, _ => None
  end.

End ReadBack.

(** ** Strings *)

Lemma append_nil_r (s : string) : s ++ "" = s.
Proof. induction s as [|c s IH]; simpl; [reflexivity | now rewrite IH]. Qed.

Lemma append_assoc (s t u : string) : (s ++ t) ++ u = s ++ (t ++ u).
Proof. induction s as [|c s IH]; simpl; [reflexivity | now rewrite IH]. Qed.

Lemma append_eq_nil (s t : string) : s ++ t = "" -> s = "" /\ t = "".
Proof. destruct s; simpl; [auto | discriminate]. Qed.

Lemma length_append (s t : string) :
  String.length (s ++ t) = (String.length s + String.length t)%nat.
Proof. induction s as [|c s IH]; simpl; [reflexivity | now rewrite IH]. Qed.

(** Two concatenations whose left parts have the same length agree part by
    part. *)
Lemma append_inj_length (s s' t t' : string) :
  String.length s = String.length s' ->
  s ++ t = s' ++ t' -> s = s' /\ t = t'.
Proof.
  revert s'; induction s as [|c s IH]; intros [|c' s'] Hlen Heq;
    simpl in *; try discriminate.
  - auto.
  - injection Heq as -> Heq. injection Hlen as Hlen.
    destruct (IH s' Hlen Heq) as [-> ->]. auto.
Qed.

(** ** Regular expressions: what the matcher decides *)

Module ReFacts.
Import Re.

#[local] Hint Constructors matches : core.

Lemma nullable_matches (r : regex) : nullable r = true <-> matches r "".
Proof.
  split.
  - induction r; simpl; intros H; try discriminate; auto.
    + apply andb_prop in H as [H1 H2].
      change "" with ("" ++ ""). auto.
    + apply orb_prop in H as [H|H]; auto.
  - intros H. remember "" as s eqn:Hs.
    induction H; simpl; try reflexivity; try discriminate.
    + apply append_eq_nil in Hs as [-> ->].
      now rewrite IHmatches1, IHmatches2.
    + now rewrite IHmatches.
    + rewrite IHmatches by assumption. apply orb_true_r.
Qed.

Lemma deriv_sound (c : ascii) (r : regex) :
  forall s, matches (deriv c r) s -> matches r (String c s).
Proof.
  induction r; simpl; intros s H.
  - inversion H.
  - inversion H.
  - destruct (p c) eqn:Hp; inversion H; subst. now constructor.
  - destruct (nullable r1) eqn:Hn.
    + inversion H as [| | | ? ? ? H' | ? ? ? H' | |]; subst.
      * inversion H'; subst.
        change (String c (s1 ++ s2)) with (String c s1 ++ s2). auto.
      * change (String c s) with ("" ++ String c s).
        constructor; [now apply nullable_matches | auto].
    + inversion H; subst.
      change (String c (s1 ++ s2)) with (String c s1 ++ s2). auto.
  - inversion H; subst; auto.
  - inversion H; subst.
    change (String c (s1 ++ s2)) with (String c s1 ++ s2). auto.
Qed.

Lemma deriv_complete (c : ascii) (r : regex) (t : string) :
  matches r t -> forall s, t = String c s -> matches (deriv c r) s.
Proof.
  induction 1 as [ | p c' Hp | r1 r2 s1 s2 H1 IH1 H2 IH2 | r1 r2 s' H1 IH1
                 | r1 r2 s' H2 IH2 | | r1 s1 s2 H1 IH1 H2 IH2 ];
    intros s Heq; simpl.
  - discriminate.
  - injection Heq as -> <-. rewrite Hp. constructor.
  - destruct s1 as [|c1 s1]; simpl in Heq.
    + subst s2. apply nullable_matches in H1. rewrite H1.
      apply MAltR. now apply IH2.
    + injection Heq as -> <-.
      assert (Hd : matches (Seq (deriv c r1) r2) (s1 ++ s2))
        by (constructor; auto).
      destruct (nullable r1); auto.
  - apply MAltL. auto.
  - apply MAltR. auto.
  - discriminate.
  - destruct s1 as [|c1 s1]; simpl in Heq.
    + now apply IH2.
    + injection Heq as -> <-. constructor; auto.
Qed.

Lemma deriv_matches (c : ascii) (r : regex) (s : string) :
  matches (deriv c r) s <-> matches r (String c s).
Proof.
  split; [apply deriv_sound | intros H; now apply (deriv_complete c r _ H)].
Qed.

(** [search_anchored] finds a prefix that is a word of the pattern. *)
Lemma search_anchored_spec (r : regex) (s : string) :
  search_anchored r s = true <-> exists p q, s = p ++ q /\ matches r p.
Proof.
  revert r; induction s as [|c s IH]; intros r; simpl.
  - rewrite orb_false_r, nullable_matches. split.
    + intros H. exists "", "". auto.
    + intros (p & q & Heq & H). symmetry in Heq.
      apply append_eq_nil in Heq as [-> _]. exact H.
  - rewrite orb_true_iff, nullable_matches, IH. split.
    + intros [H | (p & q & -> & H)].
      * exists "", (String c s). auto.
      * exists (String c p), q. split; [reflexivity | now apply deriv_matches].
    + intros (p & q & Heq & H). destruct p as [|c' p]; simpl in Heq.
      * now left.
      * injection Heq as <- ->. right. exists p, q.
        split; [reflexivity | now apply deriv_matches].
Qed.

End ReFacts.

(** ** The three patterns of [execute], in words *)

Module KeywordFacts.
Import Re Spec ReFacts.

#[local] Hint Constructors matches : core.

Lemma isspace_lower (c : ascii) : isspace c = true -> lower c = c.
Proof.
  destruct c as [[] [] [] [] [] [] [] []]; vm_compute;
    intros H; try reflexivity; discriminate H.
Qed.

Lemma star_ws_matches (s : string) :
  matches (Star ws) s <-> all_space s = true.
Proof.
  split.
  - intros H. remember (Star ws) as r eqn:Hr.
    induction H; try discriminate; [reflexivity|].
    injection Hr as ->. inversion H; subst. simpl.
    rewrite IHmatches2 by reflexivity.
    match goal with Hc : isspace _ = true |- _ => now rewrite Hc end.
  - induction s as [|c s IH]; simpl; intros H; [constructor|].
    apply andb_prop in H as [Hc Hs].
    change (String c s) with (String c "" ++ s).
    constructor; [now constructor | auto].
Qed.

Lemma literal_i_matches (kw k : string) :
  matches (literal_i kw) k <->
  String.length k = String.length kw /\ prefix_i kw k = true.
Proof.
  revert k; induction kw as [|c kw IH]; intros k; simpl.
  - split.
    + intros H. inversion H. auto.
    + intros [Hl _]. destruct k; [constructor | discriminate].
  - split.
    + intros H. inversion H as [| | ? ? s1 s2 H1 H2 | | | |]; subst.
      inversion H1 as [|? x Hx| | | | |]; subst. simpl.
      apply IH in H2 as [-> ->]. now rewrite Hx.
    + intros [Hl Hp]. destruct k as [|x k]; [discriminate|].
      apply andb_prop in Hp as [Hx Hp]. injection Hl as Hl.
      change (String x k) with (String x "" ++ k).
      constructor; [now constructor | apply IH; auto].
Qed.

Lemma search_leading (K : regex) (s : string) :
  search_anchored (Seq (Star ws) (Seq K (plus ws))) s = true <-> leading K s.
Proof.
  rewrite search_anchored_spec. unfold leading. split.
  - intros (p & q & -> & H).
    inversion H as [| | ? ? a p2 Ha H2 | | | |]; subst.
    inversion H2 as [| | ? ? k b Hk Hb | | | |]; subst.
    inversion Hb as [| | ? ? b1 b2 Hb1 Hb2 | | | |]; subst.
    inversion Hb1 as [|? c Hc| | | | |]; subst.
    exists a, k, c, (b2 ++ q). repeat split.
    + now rewrite !append_assoc.
    + now apply star_ws_matches.
    + assumption.
    + assumption.
  - intros (a & k & c & q & -> & Ha & Hk & Hc).
    exists (a ++ (k ++ (String c "" ++ ""))), q. split.
    + now rewrite !append_assoc.
    + constructor; [now apply star_ws_matches|].
      constructor; [assumption|].
      constructor; [now constructor | constructor].
Qed.

Lemma leading_alt (K1 K2 : regex) (s : string) :
  leading (Alt K1 K2) s <-> leading K1 s \/ leading K2 s.
Proof.
  unfold leading. split.
  - intros (a & k & c & q & Hs & Ha & Hk & Hc).
    inversion Hk; subst; [left | right]; exists a, k, c, q; auto.
  - intros [(a & k & c & q & Hs & Ha & Hk & Hc)
           |(a & k & c & q & Hs & Ha & Hk & Hc)];
      exists a, k, c, q; auto.
Qed.

Lemma lstrip_split (s : string) :
  exists a, s = a ++ lstrip s /\ all_space a = true.
Proof.
  induction s as [|c s (a & Hs & Ha)]; simpl.
  - exists "". auto.
  - destruct (isspace c) eqn:Hc.
    + exists (String c a). simpl. rewrite Hc, Ha, <- Hs. auto.
    + exists "". auto.
Qed.

Lemma lstrip_all_space (a : string) (c : ascii) (t : string) :
  all_space a = true -> isspace c = false ->
  lstrip (a ++ String c t) = String c t.
Proof.
  intros Ha Hc. induction a as [|x a IH]; simpl in *.
  - now rewrite Hc.
  - apply andb_prop in Ha as [-> Ha]. auto.
Qed.

Lemma prefix_i_app (kw k r : string) :
  prefix_i kw k = true -> prefix_i kw (k ++ r) = true.
Proof.
  revert k; induction kw as [|c kw IH]; intros [|x k]; simpl; auto;
    try discriminate.
  intros H. apply andb_prop in H as [-> H]. simpl. auto.
Qed.

Lemma drop_app (k r : string) : drop (String.length k) (k ++ r) = r.
Proof. induction k; simpl; auto. Qed.

Lemma prefix_i_split (kw t : string) :
  prefix_i kw t = true ->
  exists k, t = k ++ drop (String.length kw) t /\
            String.length k = String.length kw /\ prefix_i kw k = true.
Proof.
  revert t; induction kw as [|c kw IH]; intros t; simpl.
  - exists "". auto.
  - destruct t as [|x t]; [discriminate|]. intros H.
    apply andb_prop in H as [Hx H]. destruct (IH t H) as (k & Ht & Hl & Hk).
    exists (String x k). simpl. rewrite Hx, Hk, Hl, <- Ht. auto.
Qed.

(** A keyword whose first letter is no whitespace: the pattern
    [^\s*kw\s+] under [re.I] says that the text, stripped of leading
    whitespace, starts with the letters of [kw] and goes on with a
    whitespace character. *)
Lemma leading_literal (c0 : ascii) (kw s : string) :
  isspace (lower c0) = false ->
  leading (literal_i (String c0 kw)) s <->
  keyword_then_space (String c0 kw) s = true.
Proof.
  intros Hc0. unfold keyword_then_space. split.
  - intros (a & k & c & q & -> & Ha & Hk & Hc).
    apply literal_i_matches in Hk as [Hl Hk].
    destruct k as [|x k]; [discriminate|].
    assert (Hx : isspace x = false).
    { simpl in Hk. apply andb_prop in Hk as [Hx _].
      apply Ascii.eqb_eq in Hx. destruct (isspace x) eqn:E; [|reflexivity].
      pose proof (isspace_lower _ E) as E'. congruence. }
    change (String x k ++ String c q) with (String x (k ++ String c q)).
    rewrite (lstrip_all_space a x _ Ha Hx).
    change (String x (k ++ String c q)) with (String x k ++ String c q).
    rewrite (prefix_i_app _ _ _ Hk), <- Hl, drop_app. exact Hc.
  - intros H. apply andb_prop in H as [Hp Hd].
    destruct (lstrip_split s) as (a & Hs & Ha).
    destruct (prefix_i_split _ _ Hp) as (k & Ht & Hl & Hk).
    destruct (drop (String.length (String c0 kw)) (lstrip s)) as [|c q] eqn:E;
      [discriminate|].
    exists a, k, c, q. repeat split; auto.
    + now rewrite <- Ht.
    + now apply literal_i_matches.
Qed.

Lemma search_keyword (c0 : ascii) (kw s : string) :
  isspace (lower c0) = false ->
  search_anchored (Seq (Star ws) (Seq (literal_i (String c0 kw)) (plus ws))) s
  = keyword_then_space (String c0 kw) s.
Proof.
  intros H. apply eq_iff_eq_true.
  now rewrite search_leading, leading_literal.
Qed.

Lemma search_SELECT (s : string) :
  search_anchored SELECT_re s = keyword_then_space "SELECT" s.
Proof. now apply search_keyword. Qed.

Lemma search_INSERT (s : string) :
  search_anchored INSERT_re s = keyword_then_space "INSERT" s.
Proof. now apply search_keyword. Qed.

Lemma search_DELETE_UPDATE (s : string) :
  search_anchored DELETE_UPDATE_re s
  = keyword_then_space "DELETE" s || keyword_then_space "UPDATE" s.
Proof.
  apply eq_iff_eq_true. unfold DELETE_UPDATE_re.
  rewrite search_leading, leading_alt, orb_true_iff.
  now rewrite !leading_literal.
Qed.

(** Two keywords that differ in their first letter exclude each other. *)
Lemma keywords_exclusive (c1 c2 : ascii) (kw1 kw2 s : string) :
  lower c1 <> lower c2 ->
  keyword_then_space (String c1 kw1) s = true ->
  keyword_then_space (String c2 kw2) s = false.
Proof.
  unfold keyword_then_space. intros Hne H.
  apply andb_prop in H as [H _].
  destruct (lstrip s) as [|x t]; [discriminate|]. simpl in *.
  apply andb_prop in H as [H _]. apply Ascii.eqb_eq in H.
  destruct (Ascii.eqb_spec (lower x) (lower c2)) as [E|E]; [|reflexivity].
  congruence.
Qed.

Lemma isspace_not_word (c : ascii) : isspace c = true -> is_word c = false.
Proof.
  destruct c as [[] [] [] [] [] [] [] []]; vm_compute;
    intros H; try reflexivity; discriminate H.
Qed.

(** A keyword followed by whitespace is a keyword that begins the text. *)
Lemma keyword_then_space_begins (kw s : string) :
  keyword_then_space kw s = true -> begins_with_keyword kw s = true.
Proof.
  unfold keyword_then_space, begins_with_keyword. intros H.
  apply andb_prop in H as [-> H]. simpl.
  destruct (drop (String.length kw) (lstrip s)) as [|c q]; [reflexivity|].
  now rewrite (isspace_not_word c H).
Qed.

(** The class of a statement, read off its leading keyword. *)
Lemma statement_class_keyword (s : string) :
  statement_class s =
  if keyword_then_space "SELECT" s then IsSelect
  else if keyword_then_space "INSERT" s then IsInsert
  else if keyword_then_space "DELETE" s || keyword_then_space "UPDATE" s
       then IsDeleteUpdate
  else IsOther.
Proof.
  unfold statement_class.
  now rewrite search_SELECT, search_INSERT, search_DELETE_UPDATE.
Qed.

(** The tests exclude one another, so their order decides nothing. *)
Lemma statement_class_insert (s : string) :
  statement_class s = IsInsert <-> keyword_then_space "INSERT" s = true.
Proof.
  rewrite statement_class_keyword. split.
  - destruct (keyword_then_space "SELECT" s); [discriminate|].
    destruct (keyword_then_space "INSERT" s); [reflexivity|].
    destruct (keyword_then_space "DELETE" s || keyword_then_space "UPDATE" s);
      discriminate.
  - intros H.
    rewrite (keywords_exclusive "I" "S" "NSERT" "ELECT" s), H;
      [reflexivity | discriminate | exact H].
Qed.

Lemma statement_class_delete_update (s : string) :
  statement_class s = IsDeleteUpdate <->
  keyword_then_space "DELETE" s = true \/ keyword_then_space "UPDATE" s = true.
Proof.
  rewrite statement_class_keyword, <- orb_true_iff. split.
  - destruct (keyword_then_space "SELECT" s); [discriminate|].
    destruct (keyword_then_space "INSERT" s); [discriminate|].
    destruct (keyword_then_space "DELETE" s || keyword_then_space "UPDATE" s);
      [reflexivity | discriminate].
  - intros H. rewrite H.
    assert (Hs : keyword_then_space "SELECT" s = false /\
                 keyword_then_space "INSERT" s = false).
    { apply orb_prop in H as [H|H]; split;
        first [ apply (keywords_exclusive "D" _ "ELETE" _ s); [discriminate|exact H]
              | apply (keywords_exclusive "U" _ "PDATE" _ s); [discriminate|exact H] ]. }
    destruct Hs as [-> ->]. reflexivity.
Qed.

End KeywordFacts.

(** ** The literal renderer *)

Module LiteralFacts.
Import SQLAlchemy SQL Spec.

Lemma process_supported (major : Z) (d : Dialect) (v : PyValue) :
  match process major d v with
  | Return _ => supported_scalar major v = true
  | Raise e => supported_scalar major v = false /\ e = unsupported_value
  end.
Proof.
  destruct v; unfold process, isinstance; simpl; auto;
    destruct (major =? 3); simpl; auto.
Qed.

Lemma comprehension_supported (major : Z) (d : Dialect) (items : list PyValue) :
  match comprehension (process major d) items with
  | Return _ => forallb (supported_scalar major) items = true
  | Raise e =>
      forallb (supported_scalar major) items = false /\ e = unsupported_value
  end.
Proof.
  induction items as [|v items IH]; simpl; [reflexivity|].
  pose proof (process_supported major d v) as Hv.
  destruct (process major d v) as [s|e]; simpl.
  - rewrite Hv. simpl.
    destruct (comprehension (process major d) items); simpl; exact IH.
  - destruct Hv as [-> ->]. auto.
Qed.

Lemma comprehension_Forall2 {A B} (f : A -> Outcome B) (l : list A)
    (rs : list B) :
  Forall2 (fun v r => f v = Return r) l rs ->
  comprehension f l = Return rs.
Proof.
  induction 1 as [|v r l rs Hv _ IH]; simpl; [reflexivity|].
  now rewrite Hv, IH.
Qed.

(** The test for [datetime.date] comes first and holds of a [datetime]: the
    branch for [datetime.datetime] is never taken, and a [datetime] is
    rendered as its date. *)
Lemma datetime_rendered_as_date (major : Z) (d : Dialect) (dt : datetime) :
  process major d (PyDatetime dt) = process major d (PyDate (date_part dt)).
Proof. reflexivity. Qed.

(** The format of a time stops at the seconds: its microseconds have no
    part in the literal, for any dialect. *)
Lemma time_rendered_to_the_second (major : Z) (d : Dialect) (t : time) :
  process major d (PyTime t)
  = process major d (PyTime (mktime (hour t) (minute t) (second t) 0)).
Proof. reflexivity. Qed.

Lemma to_int_not_nil (n : Z) :
  Z.to_int n <> Decimal.Pos Decimal.Nil /\
  Z.to_int n <> Decimal.Neg Decimal.Nil.
Proof.
  destruct n as [|p|p]; simpl; split; intros H; try discriminate H;
    injection H as H; exact (DecimalPos.Unsigned.to_uint_nonnil p H).
Qed.

Lemma digit_value_digit (z : Z) : ReadBack.digit_value (digit z) = Some (z mod 10).
Proof.
  unfold ReadBack.digit_value, digit.
  pose proof (Z.mod_pos_bound z 10 eq_refl) as Hz.
  rewrite nat_ascii_embedding by lia.
  replace (Z.of_nat (48 + Z.to_nat (z mod 10))) with (48 + z mod 10) by lia.
  destruct (Z.leb_spec 48 (48 + z mod 10)); [|lia].
  destruct (Z.leb_spec (48 + z mod 10) 57); [|lia].
  cbv [andb]. f_equal. lia.
Qed.

(** Two zero-filled digits read back to the number they were written
    from. *)
Lemma two_digits_zero_pad (z : Z) :
  0 <= z < 100 ->
  zero_pad 2 z = String (digit (z / 10)) (String (digit z) "") /\
  ReadBack.two_digits (digit (z / 10)) (digit z) = Some z.
Proof.
  intros Hz. split; [reflexivity|].
  unfold ReadBack.two_digits. rewrite !digit_value_digit. f_equal.
  Z.to_euclidean_division_equations. lia.
Qed.

Lemma parse_decimal_decimal (z : Z) :
  ReadBack.parse_decimal (decimal z) = Some z.
Proof.
  unfold ReadBack.parse_decimal, decimal.
  destruct (to_int_not_nil z) as [Hp Hn].
  rewrite DecimalString.NilZero.isi by assumption.
  simpl. now rewrite DecimalZ.of_to.
Qed.

Lemma split_on_first (c : ascii) (a b : string) :
  ReadBack.split_on c a = None ->
  ReadBack.split_on c (a ++ String c b) = Some (a, b).
Proof.
  induction a as [|x a IH]; simpl; intros H.
  - now rewrite Ascii.eqb_refl.
  - destruct (x =? c)%char; [discriminate|].
    destruct (ReadBack.split_on c a) as [[? ?]|]; [discriminate|].
    now rewrite IH.
Qed.

Lemma digits_without_dash (u : Decimal.uint) :
  ReadBack.split_on "-" (DecimalString.NilEmpty.string_of_uint u) = None.
Proof. induction u; simpl; try rewrite IHu; reflexivity. Qed.

(** The decimal text of a number that is not negative has no sign. *)
Lemma decimal_without_dash (z : Z) :
  0 <= z -> ReadBack.split_on "-" (decimal z) = None.
Proof.
  intros Hz. unfold decimal. destruct z as [|p|p]; [reflexivity| |lia].
  simpl. unfold DecimalString.NilZero.string_of_uint.
  destruct (Pos.to_uint p); try reflexivity; apply digits_without_dash.
Qed.

(** The text of a date reads back to the date. *)
Lemma parse_date_format (a : date) :
  Spec.valid_date a ->
  ReadBack.parse_date (format_time (date_timetuple a) "%Y-%m-%d") = Some a.
Proof.
  destruct a as [y m d]. unfold Spec.valid_date; cbn [year month day].
  intros (Hy & Hm & Hd).
  assert (Hm' : 0 <= m < 100) by lia. assert (Hd' : 0 <= d < 100) by lia.
  change (format_time (date_timetuple (mkdate y m d)) "%Y-%m-%d")
    with (decimal y ++
          String "-" (String (digit (m / 10)) (String (digit m)
            (String "-" (String (digit (d / 10)) (String (digit d) "")))))).
  unfold ReadBack.parse_date.
  rewrite split_on_first by (apply decimal_without_dash; lia).
  rewrite Ascii.eqb_refl, parse_decimal_decimal.
  rewrite (proj2 (two_digits_zero_pad m Hm')).
  now rewrite (proj2 (two_digits_zero_pad d Hd')).
Qed.

(** The text of a time of a whole number of seconds reads back to the
    time. *)
Lemma parse_time_format (t : time) :
  Spec.valid_time t -> microsecond t = 0 ->
  ReadBack.parse_time (format_time (time_timetuple t) "%H:%M:%S") = Some t.
Proof.
  destruct t as [h m s u].
  unfold Spec.valid_time; cbn [hour minute second microsecond].
  intros (Hh & Hm & Hs & _) ->.
  assert (Hh' : 0 <= h < 100) by lia. assert (Hm' : 0 <= m < 100) by lia.
  assert (Hs' : 0 <= s < 100) by lia.
  change (format_time (time_timetuple (mktime h m s 0)) "%H:%M:%S")
    with (String (digit (h / 10)) (String (digit h) (String ":"
            (String (digit (m / 10)) (String (digit m) (String ":"
              (String (digit (s / 10)) (String (digit s) "")))))))).
  unfold ReadBack.parse_time. cbv [Ascii.eqb Bool.eqb andb].
  rewrite (proj2 (two_digits_zero_pad h Hh')).
  rewrite (proj2 (two_digits_zero_pad m Hm')).
  now rewrite (proj2 (two_digits_zero_pad s Hs')).
Qed.

End LiteralFacts.

Module Literal.
Import SQLAlchemy SQL Spec LiteralFacts.

(** C7, as the code has it: [process_literal_param] produces a literal
    exactly when the value is a scalar of a supported kind (boolean, date,
    datetime, time, float, integer, text, NULL) or a list whose elements all
    are; for every other value it raises [RuntimeError("unsupported value")]
    and produces nothing. *)
Theorem process_literal_param_renders_iff_renderable
    (major : Z) (d : Dialect) (v : PyValue) :
  match process_literal_param major v d with
  | Return _ => renderable major v = true
  | Raise e => renderable major v = false /\ e = unsupported_value
  end.
Proof.
  destruct v as [ | | | | | | | | | | items | | ];
    try (match goal with
         | |- context [process_literal_param _ ?v _] =>
             exact (process_supported major d v)
         end).
  simpl.
  pose proof (comprehension_supported major d items) as H.
  destruct (comprehension (process major d) items); exact H.
Qed.

(** C7 as stated fails: a list is no scalar of a supported kind, yet the
    renderer produces a literal for it and raises nothing. *)
Lemma list_value_is_rendered :
  supported_scalar 3 (PyList [PyInt 1; PyInt 2]) = false /\
  process_literal_param 3 (PyList [PyInt 1; PyInt 2]) Sample.dialect
  = Return "1, 2".
Proof. split; reflexivity. Qed.

(** C9: a list is rendered element by element with the scalar dispatch
    [process], and the literals are joined with a comma and a space. *)
Theorem list_rendered_elementwise
    (major : Z) (d : Dialect) (items : list PyValue) (literals : list string) :
  Forall2 (fun v s => process major d v = Return s) items literals ->
  process_literal_param major (PyList items) d
  = Return (String.concat ", " literals).
Proof.
  intros H. simpl. now rewrite (comprehension_Forall2 _ _ _ H).
Qed.

Lemma list_rendered_elementwise_witness :
  process_literal_param 3
    (PyList [PyInt 1; PyStr "o'k"; PyBool true; PyNull]) Sample.dialect
  = Return "1, 'o''k', true, NULL".
Proof.
  apply (list_rendered_elementwise 3 Sample.dialect
           [PyInt 1; PyStr "o'k"; PyBool true; PyNull]
           ["1"; "'o''k'"; "true"; "NULL"]).
  repeat constructor.
Defined.

(** C10: a boolean is an instance of [int] too, but the test for [bool]
    comes first: [True] and [False] go to the dialect's processor for
    booleans, and the processor for integers has no part in the result. *)
Theorem bool_rendered_as_boolean (major : Z) (d : Dialect) (b : bool) :
  isinstance (PyBool b) Tbool = true /\
  isinstance (PyBool b) Tint = true /\
  process_literal_param major (PyBool b) d
  = Return (Boolean_literal_processor d (PyBool b)) /\
  forall f : PyValue -> string,
    process_literal_param major (PyBool b) (with_Integer d f)
    = process_literal_param major (PyBool b) d.
Proof.
  split; [reflexivity|]. split; [reflexivity|].
  split; [|intros f]; unfold process_literal_param, process;
    now rewrite (eq_refl : isinstance (PyBool b) Tbool = true).
Qed.




End Literal.

(** ** [execute] *)

Module ExecuteFacts.
Import SQLAlchemy SQL Spec.

Section Stages.

Variable sa : Library.
Variable major : Z.
Variable text : string.
Variable params : list (string * PyValue).
Variable w : World sa.

(** A failure while the parameters are bound leaves the [try] body at
    once. *)
Lemma bind_failure (e : Exception) :
  bind_parameters sa (SQLAlchemy.text sa text) params = Raise e ->
  execute_try sa major text params w = (Raise e, w).
Proof.
  intros H. unfold execute_try, bind, lift. now rewrite H.
Qed.

(** So does a failure of the compiler, which is where an exception of the
    literal renderer comes out. *)
Lemma compile_failure (clause : TextClause sa) (e : Exception) :
  bind_parameters sa (SQLAlchemy.text sa text) params = Return clause ->
  compile sa clause (process_literal_param major) = Raise e ->
  execute_try sa major text params w = (Raise e, w).
Proof.
  intros Hb Hc. unfold execute_try, bind, lift. now rewrite Hb, Hc.
Qed.

(** A failure of the engine: nothing is logged. *)
Lemma engine_failure (clause : TextClause sa) (statement : string)
    (e : Exception) (c : Connection sa) :
  bind_parameters sa (SQLAlchemy.text sa text) params = Return clause ->
  compile sa clause (process_literal_param major) = Return statement ->
  engine_execute sa (Plain statement) (connection sa w) = (Raise e, c) ->
  execute_try sa major text params w = (Raise e, mkWorld sa c (debug_log sa w)).
Proof.
  intros Hb Hc He.
  unfold execute_try, bind, lift, self_engine_execute.
  now rewrite Hb, Hc, He.
Qed.

(** Once the statement is executed, what is left of the [try] body is the
    chain of tests on the statement. *)
Lemma execute_try_executed (statement : string) (result : ResultProxy)
    (w' : World sa) :
  executed sa major text params w statement result w' ->
  execute_try sa major text params w =
  (if Re.search_anchored Re.SELECT_re statement then
     bind sa (lift sa (fetchall result)) (fun rows =>
     ret sa (PyList (map dict rows)))
   else if Re.search_anchored Re.INSERT_re statement then
     if String.eqb (get_backend_name sa) "postgresql" then
       bind sa (self_engine_execute sa
                  (Clause (SQLAlchemy.text sa "SELECT LASTVAL()")))
         (fun result2 =>
       bind sa (lift sa (first result2)) (fun row =>
       lift sa (getitem0 row)))
     else ret sa (lastrowid result)
   else if Re.search_anchored Re.DELETE_UPDATE_re statement then
     ret sa (PyInt (rowcount result))
   else ret sa (PyBool true)) w'.
Proof.
  intros (clause & Hb & Hc & He & Hl).
  destruct w' as [c' l']; simpl in He, Hl; subst l'.
  unfold execute_try.
  unfold bind at 1, lift at 1. rewrite Hb.
  unfold bind at 1, lift at 1. rewrite Hc.
  unfold bind at 1, self_engine_execute at 1. rewrite He.
  unfold bind at 1, self_logger_debug. simpl. reflexivity.
Qed.

End Stages.

End ExecuteFacts.

Module Execute.
Import SQLAlchemy SQL Spec KeywordFacts ExecuteFacts.

(** C1, as the code has it: when the compiled statement begins, after
    optional whitespace, with SELECT (in any case) followed by at least one
    whitespace character, and the engine executes it, [execute] returns the
    rows of the result as a list of [dict]s, one per row, field to value;
    the empty list when there is no row. *)
Theorem select_returns_rows
    (sa : Library) (major : Z) (text : string)
    (params : list (string * PyValue)) (w : World sa)
    (statement : string) (result : ResultProxy) (w' : World sa)
    (rows : list RowProxy) :
  executed sa major text params w statement result w' ->
  keyword_then_space "SELECT" statement = true ->
  fetchall result = Return rows ->
  execute sa major text params w = (Return (PyList (map dict rows)), w') /\
  (rows = [] -> fst (execute sa major text params w) = Return (PyList [])).
Proof.
  intros Hx Hk Hrows.
  assert (H : execute sa major text params w
              = (Return (PyList (map dict rows)), w')).
  { unfold execute. rewrite (execute_try_executed _ _ _ _ _ _ _ _ Hx).
    rewrite search_SELECT, Hk. unfold bind, lift, ret. now rewrite Hrows. }
  split; [exact H|]. intros ->. now rewrite H.
Qed.

Lemma select_returns_rows_witness :
  fst (execute Sample.sqlite 3 "SELECT * FROM t WHERE id = :id"
         [("id", PyInt 7)] (Sample.world0 Sample.sqlite []))
  = Return (PyList []).
Proof.
  refine (proj2 (select_returns_rows Sample.sqlite 3 _ _ _
                   "SELECT * FROM t WHERE id = 7" _ 
                   (mkWorld Sample.sqlite ["SELECT * FROM t WHERE id = 7"]
                            ["SELECT * FROM t WHERE id = 7"])
                   [] _ _ _) eq_refl).
  - eexists. repeat split.
  - reflexivity.
  - reflexivity.
Defined.

(** C1 as stated fails: [SELECT*FROM t] begins with the keyword SELECT and
    the engine answers it with a row, but no whitespace follows the keyword:
    none of the three patterns matches and [execute] returns [True]. *)
Lemma select_without_space_returns_True :
  let w := Sample.world0 Sample.sqlite [] in
  let rows := [[("id", PyInt 1); ("name", PyStr "a")]] in
  begins_with_keyword "SELECT" "SELECT*FROM t" = true /\
  (exists result w',
     executed Sample.sqlite 3 "SELECT*FROM t" [] w "SELECT*FROM t" result w' /\
     fetchall result = Return rows) /\
  fst (execute Sample.sqlite 3 "SELECT*FROM t" [] w) = Return (PyBool true) /\
  Return (PyBool true) <> Return (PyList (map dict rows)).
Proof.
  cbv zeta. repeat split.
  - exists (Sample.rows_result [[("id", PyInt 1); ("name", PyStr "a")]]),
      (mkWorld Sample.sqlite ["SELECT*FROM t"] ["SELECT*FROM t"]).
    split; [|reflexivity]. eexists. repeat split.
  - discriminate.
Qed.

(** C2: an [IntegrityError] raised in the [try] body, and so one that the
    engine raises when it executes the statement (a duplicate key), is
    caught: [execute] returns [None] and raises nothing. *)
Theorem integrity_violation_returns_None
    (sa : Library) (major : Z) (text : string)
    (params : list (string * PyValue)) (w : World sa) (e : Exception) :
  is_IntegrityError e = true ->
  (fst (execute_try sa major text params w) = Raise e ->
   fst (execute sa major text params w) = Return PyNone) /\
  (forall clause statement c,
     bind_parameters sa (SQLAlchemy.text sa text) params = Return clause ->
     compile sa clause (process_literal_param major) = Return statement ->
     engine_execute sa (Plain statement) (connection sa w) = (Raise e, c) ->
     execute sa major text params w
     = (Return PyNone, mkWorld sa c (debug_log sa w))).
Proof.
  intros Hi. split.
  - intros H. unfold execute.
    destruct (execute_try sa major text params w) as [[v|e'] w'];
      simpl in H; [discriminate|].
    injection H as ->. now rewrite Hi.
  - intros clause statement c Hb Hc He. unfold execute.
    rewrite (engine_failure _ _ _ _ _ _ _ _ _ Hb Hc He). now rewrite Hi.
Qed.

Lemma integrity_violation_returns_None_witness :
  fst (execute Sample.sqlite 3 "INSERT INTO t (id) VALUES (:id)"
         [("id", PyInt 1)] (Sample.world0 Sample.sqlite []))
  = Return PyNone.
Proof.
  apply (proj1 (integrity_violation_returns_None Sample.sqlite 3 _ _ _
                  Sample.duplicate_key eq_refl)).
  reflexivity.
Defined.

(** C4: for a statement classified as an INSERT that the engine executes,
    [execute] returns the key the backend reports: on postgresql the first
    column of the first row of a further query [SELECT LASTVAL()], on any
    other backend the [lastrowid] of the result. *)
Theorem insert_returns_generated_key
    (sa : Library) (major : Z) (text : string)
    (params : list (string * PyValue)) (w : World sa)
    (statement : string) (result : ResultProxy) (w' : World sa) :
  executed sa major text params w statement result w' ->
  statement_class statement = IsInsert ->
  (get_backend_name sa = "postgresql" ->
   forall result2 c2 k v row,
     engine_execute sa (Clause (SQLAlchemy.text sa "SELECT LASTVAL()"))
       (connection sa w')
     = (Return result2, c2) ->
     first result2 = Return (Some ((k, v) :: row)) ->
     execute sa major text params w
     = (Return v, mkWorld sa c2 (debug_log sa w'))) /\
  (get_backend_name sa <> "postgresql" ->
   execute sa major text params w = (Return (lastrowid result), w')).
Proof.
  intros Hx Hk. unfold statement_class in Hk.
  destruct (Re.search_anchored Re.SELECT_re statement) eqn:Hs;
    [discriminate|].
  destruct (Re.search_anchored Re.INSERT_re statement) eqn:Hi;
    [|destruct (Re.search_anchored Re.DELETE_UPDATE_re statement);
      discriminate].
  split.
  - intros Hpg result2 c2 k v row He2 Hf. unfold execute.
    rewrite (execute_try_executed _ _ _ _ _ _ _ _ Hx), Hs, Hi, Hpg.
    simpl. unfold bind, self_engine_execute, lift.
    now rewrite He2, Hf.
  - intros Hpg. apply String.eqb_neq in Hpg. unfold execute.
    now rewrite (execute_try_executed _ _ _ _ _ _ _ _ Hx), Hs, Hi, Hpg.
Qed.

Lemma insert_returns_generated_key_witness :
  execute Sample.postgresql 3 "INSERT INTO t (name) VALUES (:name)"
    [("name", PyStr "b")] (Sample.world0 Sample.postgresql [])
  = (Return (PyInt 2),
     mkWorld Sample.postgresql
       ["INSERT INTO t (name) VALUES ('b')"; "SELECT LASTVAL()"]
       ["INSERT INTO t (name) VALUES ('b')"]).
Proof.
  refine (proj1 (insert_returns_generated_key Sample.postgresql 3 _ _ _
                   "INSERT INTO t (name) VALUES ('b')"
                   (Sample.dml_result (PyInt 2) 1)
                   (mkWorld Sample.postgresql
                      ["INSERT INTO t (name) VALUES ('b')"]
                      ["INSERT INTO t (name) VALUES ('b')"]) _ _)
            eq_refl (Sample.rows_result [[("lastval", PyInt 2)]])
            _ "lastval" (PyInt 2) [] eq_refl eq_refl).
  - eexists. repeat split.
  - reflexivity.
Defined.

(** C5: for a statement classified as an UPDATE or a DELETE that the engine
    executes, [execute] returns the [rowcount] of the result, which is 0
    when no row matched. *)
Theorem update_delete_returns_rowcount
    (sa : Library) (major : Z) (text : string)
    (params : list (string * PyValue)) (w : World sa)
    (statement : string) (result : ResultProxy) (w' : World sa) :
  executed sa major text params w statement result w' ->
  statement_class statement = IsDeleteUpdate ->
  execute sa major text params w = (Return (PyInt (rowcount result)), w') /\
  (rowcount result = 0 ->
   fst (execute sa major text params w) = Return (PyInt 0)).
Proof.
  intros Hx Hk. unfold statement_class in Hk.
  destruct (Re.search_anchored Re.SELECT_re statement) eqn:Hs;
    [discriminate|].
  destruct (Re.search_anchored Re.INSERT_re statement) eqn:Hi;
    [discriminate|].
  destruct (Re.search_anchored Re.DELETE_UPDATE_re statement) eqn:Hd;
    [|discriminate].
  assert (H : execute sa major text params w
              = (Return (PyInt (rowcount result)), w')).
  { unfold execute.
    now rewrite (execute_try_executed _ _ _ _ _ _ _ _ Hx), Hs, Hi, Hd. }
  split; [exact H|]. intros H0. now rewrite H, H0.
Qed.

Lemma update_delete_returns_rowcount_witness :
  fst (execute Sample.sqlite 3 "UPDATE t SET name = :name WHERE id = :id"
         [("name", PyStr "c"); ("id", PyInt 7)]
         (Sample.world0 Sample.sqlite []))
  = Return (PyInt 0).
Proof.
  refine (proj2 (update_delete_returns_rowcount Sample.sqlite 3 _ _ _
                   "UPDATE t SET name = 'c' WHERE id = 7"
                   (Sample.dml_result PyNone 0)
                   (mkWorld Sample.sqlite
                      ["UPDATE t SET name = 'c' WHERE id = 7"]
                      ["UPDATE t SET name = 'c' WHERE id = 7"]) _ _)
            eq_refl).
  - eexists. repeat split.
  - reflexivity.
Defined.

(** C6: a statement that is classified as none of SELECT, INSERT, UPDATE
    and DELETE, and that the engine executes without raising, makes
    [execute] return [True]. *)
Theorem other_statement_returns_True
    (sa : Library) (major : Z) (text : string)
    (params : list (string * PyValue)) (w : World sa)
    (statement : string) (result : ResultProxy) (w' : World sa) :
  executed sa major text params w statement result w' ->
  statement_class statement = IsOther ->
  execute sa major text params w = (Return (PyBool true), w').
Proof.
  intros Hx Hk. unfold statement_class in Hk.
  destruct (Re.search_anchored Re.SELECT_re statement) eqn:Hs;
    [discriminate|].
  destruct (Re.search_anchored Re.INSERT_re statement) eqn:Hi;
    [discriminate|].
  destruct (Re.search_anchored Re.DELETE_UPDATE_re statement) eqn:Hd;
    [discriminate|].
  unfold execute.
  now rewrite (execute_try_executed _ _ _ _ _ _ _ _ Hx), Hs, Hi, Hd.
Qed.

Lemma other_statement_returns_True_witness :
  execute Sample.sqlite 3 "CREATE TABLE u (id INTEGER)" []
    (Sample.world0 Sample.sqlite [])
  = (Return (PyBool true),
     mkWorld Sample.sqlite ["CREATE TABLE u (id INTEGER)"]
       ["CREATE TABLE u (id INTEGER)"]).
Proof.
  apply (other_statement_returns_True Sample.sqlite 3 _ _ _
           "CREATE TABLE u (id INTEGER)" (Sample.dml_result PyNone (-1))).
  - eexists. repeat split.
  - reflexivity.
Defined.

(** C8: every exception of the [try] body that is no [IntegrityError] is
    raised again with its cause cleared, be it raised when the parameters
    are bound, by the compiler (an unsupported parameter value) or by the
    engine (bad SQL, no connection); an [IntegrityError] gives [None]; and a
    value the body returns is returned.  So [execute] fails in these two
    ways and in no other. *)
Theorem other_failures_are_reraised
    (sa : Library) (major : Z) (text : string)
    (params : list (string * PyValue)) (w : World sa) :
  (forall e,
     fst (execute_try sa major text params w) = Raise e ->
     is_IntegrityError e = false ->
     fst (execute sa major text params w) = Raise (clear_cause e) /\
     __cause__ (clear_cause e) = None) /\
  (forall e clause,
     bind_parameters sa (SQLAlchemy.text sa text) params = Return clause ->
     compile sa clause (process_literal_param major) = Raise e ->
     is_IntegrityError e = false ->
     execute sa major text params w = (Raise (clear_cause e), w)) /\
  (forall e clause statement c,
     bind_parameters sa (SQLAlchemy.text sa text) params = Return clause ->
     compile sa clause (process_literal_param major) = Return statement ->
     engine_execute sa (Plain statement) (connection sa w) = (Raise e, c) ->
     is_IntegrityError e = false ->
     execute sa major text params w
     = (Raise (clear_cause e), mkWorld sa c (debug_log sa w))) /\
  match fst (execute sa major text params w) with
  | Return v =>
      fst (execute_try sa major text params w) = Return v \/
      v = PyNone /\
      exists e, fst (execute_try sa major text params w) = Raise e /\
                is_IntegrityError e = true
  | Raise e' =>
      exists e, fst (execute_try sa major text params w) = Raise e /\
                is_IntegrityError e = false /\ e' = clear_cause e
  end.
Proof.
  split; [|split; [|split]].
  - intros e H Hi. split; [|reflexivity]. unfold execute.
    destruct (execute_try sa major text params w) as [[v|e'] w'];
      simpl in H; [discriminate|].
    injection H as ->. now rewrite Hi.
  - intros e clause Hb Hc Hi. unfold execute.
    now rewrite (compile_failure _ _ _ _ _ _ _ Hb Hc), Hi.
  - intros e clause statement c Hb Hc He Hi. unfold execute.
    now rewrite (engine_failure _ _ _ _ _ _ _ _ _ Hb Hc He), Hi.
  - unfold execute.
    destruct (execute_try sa major text params w) as [[v|e] w']; simpl.
    + now left.
    + destruct (is_IntegrityError e) eqn:Hi; simpl.
      * right. split; [reflexivity|]. now exists e.
      * now exists e.
Qed.

Lemma other_failures_are_reraised_witness :
  execute Sample.sqlite 3 "SELECT * FROM t WHERE name = :name"
    [("name", PyObject "bytes")] (Sample.world0 Sample.sqlite [])
  = (Raise (mkException RuntimeError "unsupported value" None),
     Sample.world0 Sample.sqlite []) /\
  execute Sample.sqlite 3 "SELEC * FROM t" [] (Sample.world0 Sample.sqlite [])
  = (Raise (mkException OperationalError "not in the script" None),
     mkWorld Sample.sqlite ["SELEC * FROM t"] []).
Proof.
  split.
  - apply (proj1 (proj2 (other_failures_are_reraised Sample.sqlite 3
                           "SELECT * FROM t WHERE name = :name"
                           [("name", PyObject "bytes")]
                           (Sample.world0 Sample.sqlite [])))
             unsupported_value
             (Sample.mkclause "SELECT * FROM t WHERE name = :name"
                [("name", PyObject "bytes")]));
      reflexivity.
  - apply (proj1 (proj2 (proj2 (other_failures_are_reraised Sample.sqlite 3
                           "SELEC * FROM t" []
                           (Sample.world0 Sample.sqlite []))))
             Sample.no_such_statement
             (Sample.mkclause "SELEC * FROM t" []) "SELEC * FROM t");
      reflexivity.
Defined.

End Execute.

(** ** More on the classification of statements *)

Module ClassifyFacts.
Import Re Spec Notions KeywordFacts.

Lemma isspace_of_lower (c : ascii) : isspace (lower c) = isspace c.
Proof. destruct c as [[] [] [] [] [] [] [] []]; reflexivity. Qed.

Lemma lower_lower (c : ascii) : lower (lower c) = lower c.
Proof. destruct c as [[] [] [] [] [] [] [] []]; reflexivity. Qed.

Lemma lstrip_map_lower (s : string) :
  lstrip (map_string lower s) = map_string lower (lstrip s).
Proof.
  induction s as [|c s IH]; simpl; [reflexivity|].
  rewrite isspace_of_lower. now destruct (isspace c).
Qed.

Lemma prefix_i_map_lower (kw t : string) :
  prefix_i kw (map_string lower t) = prefix_i kw t.
Proof.
  revert t; induction kw as [|k kw IH]; intros [|c t]; simpl; auto.
  now rewrite lower_lower, IH.
Qed.

Lemma drop_map_string (f : ascii -> ascii) (n : nat) (t : string) :
  drop n (map_string f t) = map_string f (drop n t).
Proof.
  revert t; induction n as [|n IH]; intros [|c t]; simpl; auto.
Qed.

(** The test for a keyword sees the letters up to their case only. *)
Lemma keyword_then_space_map_lower (kw s : string) :
  keyword_then_space kw (map_string lower s) = keyword_then_space kw s.
Proof.
  unfold keyword_then_space.
  rewrite lstrip_map_lower, prefix_i_map_lower, drop_map_string.
  destruct (drop (String.length kw) (lstrip s)); simpl;
    [reflexivity | now rewrite isspace_of_lower].
Qed.

Lemma keyword_then_space_same_letters (kw s s' : string) :
  same_letters s s' -> keyword_then_space kw s = keyword_then_space kw s'.
Proof.
  unfold same_letters. intros H.
  now rewrite <- (keyword_then_space_map_lower kw s), H,
    keyword_then_space_map_lower.
Qed.

Lemma lstrip_leading_space (a s : string) :
  all_space a = true -> lstrip (a ++ s) = lstrip s.
Proof.
  induction a as [|c a IH]; simpl; [reflexivity|]. intros H.
  apply andb_prop in H as [-> H]. auto.
Qed.

Lemma keyword_then_space_leading_space (kw a s : string) :
  all_space a = true ->
  keyword_then_space kw (a ++ s) = keyword_then_space kw s.
Proof.
  intros H. unfold keyword_then_space. now rewrite (lstrip_leading_space _ _ H).
Qed.

(** A text that does not go on with the first letter of a keyword is not
    a keyword followed by whitespace. *)
Lemma keyword_needs_its_initial (k : ascii) (kw s : string) :
  keyword_then_space (String k kw) s = true ->
  match lstrip s with
  | EmptyString => False
  | String c _ => lower c = lower k
  end.
Proof.
  unfold keyword_then_space. intros H. apply andb_prop in H as [H _].
  destruct (lstrip s) as [|c t]; simpl in H; [discriminate|].
  apply andb_prop in H as [H _]. now apply Ascii.eqb_eq.
Qed.

Lemma no_initial_no_keyword (s : string) :
  keyword_initial s = false ->
  keyword_then_space "SELECT" s = false /\
  keyword_then_space "INSERT" s = false /\
  keyword_then_space "DELETE" s = false /\
  keyword_then_space "UPDATE" s = false.
Proof.
  unfold keyword_initial. intros H.
  repeat split;
    match goal with
    | |- keyword_then_space (String ?k ?kw) s = false =>
        destruct (keyword_then_space (String k kw) s) eqn:E; [|reflexivity];
        apply keyword_needs_its_initial in E;
        destruct (lstrip s) as [|c t]; [contradiction|];
        rewrite E in H; discriminate H
    end.
Qed.

(** Where the letters of a keyword begin the text, no keyword with another
    first letter is there followed by whitespace. *)
Lemma other_initial_no_keyword (k k' : ascii) (kw kw' s : string) :
  lower k <> lower k' ->
  prefix_i (String k kw) (lstrip s) = true ->
  keyword_then_space (String k' kw') s = false.
Proof.
  intros Hne Hp.
  destruct (keyword_then_space (String k' kw') s) eqn:E; [|reflexivity].
  apply keyword_needs_its_initial in E.
  destruct (lstrip s) as [|c t]; [contradiction|]. simpl in Hp.
  apply andb_prop in Hp as [Hp _]. apply Ascii.eqb_eq in Hp. congruence.
Qed.

End ClassifyFacts.

Module Classify.
Import SQLAlchemy SQL Re Spec Notions KeywordFacts ClassifyFacts ExecuteFacts.

(** X1: among the texts of code points below 256, each of the three
    patterns of [execute] matches exactly those that, after their leading
    whitespace, start with the letters of the keyword (of one of the two
    keywords, for the third pattern), in either case, and go on with a
    whitespace character. *)
Theorem patterns_in_words (s : string) :
  search_anchored SELECT_re s = keyword_then_space "SELECT" s /\
  search_anchored INSERT_re s = keyword_then_space "INSERT" s /\
  search_anchored DELETE_UPDATE_re s
  = keyword_then_space "DELETE" s || keyword_then_space "UPDATE" s.
Proof.
  split; [|split].
  - apply search_keyword. reflexivity.
  - apply search_keyword. reflexivity.
  - apply search_DELETE_UPDATE.
Qed.

(** X2: no text matches two of the three patterns, so the order of the
    tests in [execute] decides nothing: a statement is in a class exactly
    when the pattern of that class matches it. *)
Theorem class_is_the_pattern_that_matches (s : string) :
  (statement_class s = IsSelect <-> search_anchored SELECT_re s = true) /\
  (statement_class s = IsInsert <-> search_anchored INSERT_re s = true) /\
  (statement_class s = IsDeleteUpdate <->
   search_anchored DELETE_UPDATE_re s = true) /\
  (statement_class s = IsOther <->
   search_anchored SELECT_re s = false /\
   search_anchored INSERT_re s = false /\
   search_anchored DELETE_UPDATE_re s = false).
Proof.
  rewrite statement_class_insert, statement_class_delete_update.
  rewrite search_SELECT, search_INSERT, search_DELETE_UPDATE, orb_true_iff.
  rewrite statement_class_keyword.
  split; [|split; [reflexivity | split; [reflexivity|]]].
  - destruct (keyword_then_space "SELECT" s); [tauto|].
    split; [|discriminate].
    destruct (keyword_then_space "INSERT" s); [discriminate|].
    destruct (keyword_then_space "DELETE" s || keyword_then_space "UPDATE" s);
      discriminate.
  - destruct (keyword_then_space "SELECT" s);
      [split; [discriminate | intros (H & _); discriminate H]|].
    destruct (keyword_then_space "INSERT" s);
      [split; [discriminate | intros (_ & H & _); discriminate H]|].
    destruct (keyword_then_space "DELETE" s || keyword_then_space "UPDATE" s);
      [split; [discriminate | intros (_ & _ & H); discriminate H]|].
    tauto.
Qed.



(** X4: a statement of code points below 256 whose first character after
    the leading whitespace is none of the letters S, I, D and U (a query
    that starts with WITH, with a parenthesis or with a comment, an empty
    text) is in no class: once the engine has executed it, [execute] returns
    [True] and never the rows of the result. *)
Theorem statement_without_keyword_initial_returns_True
    (sa : Library) (major : Z) (text : string)
    (params : list (string * PyValue)) (w : World sa)
    (statement : string) (result : ResultProxy) (w' : World sa) :
  executed sa major text params w statement result w' ->
  keyword_initial statement = false ->
  statement_class statement = IsOther /\
  execute sa major text params w = (Return (PyBool true), w').
Proof.
  intros Hx Hk.
  destruct (no_initial_no_keyword _ Hk) as (Hs & Hi & Hd & Hu).
  split.
  - now rewrite statement_class_keyword, Hs, Hi, Hd, Hu.
  - unfold execute. rewrite (execute_try_executed _ _ _ _ _ _ _ _ Hx).
    now rewrite search_SELECT, search_INSERT, search_DELETE_UPDATE,
      Hs, Hi, Hd, Hu.
Qed.

Lemma statement_without_keyword_initial_returns_True_witness :
  fetchall (Sample.rows_result [[("one", PyInt 1)]])
  = Return [[("one", PyInt 1)]] /\
  execute sqlite2 3 "WITH x AS (SELECT 1 AS one) SELECT one FROM x" []
    (Sample.world0 sqlite2 [])
  = (Return (PyBool true),
     mkWorld sqlite2 ["WITH x AS (SELECT 1 AS one) SELECT one FROM x"]
       ["WITH x AS (SELECT 1 AS one) SELECT one FROM x"]).
Proof.
  split; [reflexivity|].
  refine (proj2 (statement_without_keyword_initial_returns_True sqlite2 3 _ _ _
                   "WITH x AS (SELECT 1 AS one) SELECT one FROM x"
                   (Sample.rows_result [[("one", PyInt 1)]])
                   (mkWorld sqlite2
                      ["WITH x AS (SELECT 1 AS one) SELECT one FROM x"]
                      ["WITH x AS (SELECT 1 AS one) SELECT one FROM x"])
                   _ eq_refl)).
  eexists. repeat split.
Defined.

(** X16: for each of the four keywords, a statement that begins with the
    keyword but has no whitespace character right after it (a parenthesis, a
    quoted name, a comment follows) is in no class: once the engine has
    executed it, [execute] returns [True], and neither rows nor a key nor a
    count. *)
Theorem keyword_without_space_returns_True
    (sa : Library) (major : Z) (text : string)
    (params : list (string * PyValue)) (w : World sa)
    (statement : string) (result : ResultProxy) (w' : World sa)
    (kw : string) :
  executed sa major text params w statement result w' ->
  In kw ["SELECT"; "INSERT"; "DELETE"; "UPDATE"] ->
  begins_with_keyword kw statement = true ->
  keyword_then_space kw statement = false ->
  statement_class statement = IsOther /\
  execute sa major text params w = (Return (PyBool true), w').
Proof.
  intros Hx Hkw Hb Hn.
  assert (Hp : prefix_i kw (lstrip statement) = true).
  { unfold begins_with_keyword in Hb. now apply andb_prop in Hb as [Hb _]. }
  assert (H : keyword_then_space "SELECT" statement = false /\
              keyword_then_space "INSERT" statement = false /\
              keyword_then_space "DELETE" statement = false /\
              keyword_then_space "UPDATE" statement = false).
  { simpl in Hkw.
    destruct Hkw as [<-|[<-|[<-|[<-|[]]]]];
      repeat split;
      first [ exact Hn
            | eapply other_initial_no_keyword; [|exact Hp]; discriminate ]. }
  destruct H as (Hs & Hi & Hd & Hu). split.
  - now rewrite statement_class_keyword, Hs, Hi, Hd, Hu.
  - unfold execute. rewrite (execute_try_executed _ _ _ _ _ _ _ _ Hx).
    now rewrite search_SELECT, search_INSERT, search_DELETE_UPDATE,
      Hs, Hi, Hd, Hu.
Qed.

Lemma keyword_without_space_returns_True_witness :
  rowcount (Sample.dml_result PyNone 1) = 1 /\
  execute sqlite2 3 "UPDATE`t`SET name = :name" [("name", PyStr "c")]
    (Sample.world0 sqlite2 [])
  = (Return (PyBool true),
     mkWorld sqlite2 ["UPDATE`t`SET name = 'c'"] ["UPDATE`t`SET name = 'c'"]).
Proof.
  split; [reflexivity|].
  refine (proj2 (keyword_without_space_returns_True sqlite2 3 _ _ _
                   "UPDATE`t`SET name = 'c'" (Sample.dml_result PyNone 1)
                   (mkWorld sqlite2 ["UPDATE`t`SET name = 'c'"]
                      ["UPDATE`t`SET name = 'c'"])
                   "UPDATE" _ _ eq_refl eq_refl)).
  - eexists. repeat split.
  - simpl. auto.
Defined.

End Classify.

(** ** More on parameters and their literals *)

Module RenderFacts.
Import SQLAlchemy SQL Spec Notions LiteralFacts.

Lemma comprehension_app {A B} (f : A -> Outcome B) (l1 l2 : list A) :
  comprehension f (l1 ++ l2)%list =
  obind (comprehension f l1) (fun r1 =>
  obind (comprehension f l2) (fun r2 => Return (r1 ++ r2)%list)).
Proof.
  induction l1 as [|v l1 IH]; simpl.
  - now destruct (comprehension f l2).
  - destruct (f v); simpl; [|reflexivity]. rewrite IH.
    destruct (comprehension f l1); simpl; [|reflexivity].
    now destruct (comprehension f l2).
Qed.

Lemma comprehension_length {A B} (f : A -> Outcome B) (l : list A)
    (rs : list B) :
  comprehension f l = Return rs -> List.length rs = List.length l.
Proof.
  revert rs; induction l as [|v l IH]; simpl; intros rs H.
  - now injection H as <-.
  - destruct (f v); simpl in H; [|discriminate].
    destruct (comprehension f l) as [rs'|]; simpl in H; [|discriminate].
    injection H as <-. simpl. now rewrite (IH rs').
Qed.

(** [sep.join] of two lists that are not empty. *)
Lemma concat_app (sep : string) (l1 l2 : list string) :
  l1 <> [] -> l2 <> [] ->
  String.concat sep (l1 ++ l2)%list
  = String.concat sep l1 ++ sep ++ String.concat sep l2.
Proof.
  intros H1 H2. induction l1 as [|x l1 IH]; [contradiction|].
  destruct l1 as [|y l1].
  - simpl. destruct l2; [contradiction | reflexivity].
  - change (String.concat sep ((x :: y :: l1) ++ l2)%list)
      with (x ++ sep ++ String.concat sep ((y :: l1) ++ l2)%list).
    rewrite IH by discriminate.
    change (String.concat sep (x :: y :: l1))
      with (x ++ sep ++ String.concat sep (y :: l1)).
    now rewrite !append_assoc.
Qed.

Lemma nonempty_length {A} (l : list A) : l <> [] <-> List.length l <> O.
Proof. destruct l; simpl; split; intros H; congruence. Qed.

(** The loop binds NULL where it finds [None]: it cannot tell the two. *)
Lemma bind_parameters_null_for_None (sa : Library)
    (params : list (string * PyValue)) :
  forall statement,
    bind_parameters sa statement (null_for_None params)
    = bind_parameters sa statement params.
Proof.
  induction params as [|[k v] params IH]; intros statement;
    [reflexivity|].
  destruct v; simpl;
    match goal with
    | |- obind ?o _ = _ => destruct o; simpl; auto
    end.
Qed.

(** The loop binds the parameters in their order: binding two lists one
    after the other is binding their concatenation. *)
Lemma bind_parameters_app (sa : Library)
    (params1 params2 : list (string * PyValue)) :
  forall statement,
    bind_parameters sa statement (params1 ++ params2)%list
    = obind (bind_parameters sa statement params1) (fun statement' =>
      bind_parameters sa statement' params2).
Proof.
  induction params1 as [|[k v] params1 IH]; intros statement; simpl;
    [reflexivity|].
  destruct (bindparams sa statement k
              match v with PyNone => PyNull | _ => v end);
    simpl; auto.
Qed.

Lemma dict_setitem_fresh (d : list (string * PyValue)) (k : string)
    (v : PyValue) :
  ~ In k (map fst d) -> dict_setitem d k v = (d ++ [(k, v)])%list.
Proof.
  induction d as [|[k' v'] d IH]; simpl; intros H; [reflexivity|].
  destruct (String.eqb_spec k' k) as [->|Hk]; [tauto|].
  rewrite IH by tauto. reflexivity.
Qed.

Lemma dict_fold_distinct (items acc : list (string * PyValue)) :
  NoDup (map fst (acc ++ items)%list) ->
  fold_left (fun d kv => dict_setitem d (fst kv) (snd kv)) items acc
  = (acc ++ items)%list.
Proof.
  revert acc; induction items as [|[k v] items IH]; intros acc H; simpl.
  - now rewrite app_nil_r.
  - rewrite dict_setitem_fresh.
    + rewrite IH; rewrite <- app_assoc; [reflexivity | exact H].
    + rewrite map_app in H. simpl in H.
      apply NoDup_remove_2 in H. intros Hin. apply H.
      apply in_or_app. now left.
Qed.

(** A row whose fields have distinct names is its own [dict], field by
    field in column order. *)
Lemma dict_distinct (row : list (string * PyValue)) :
  NoDup (map fst row) -> dict row = PyDict row.
Proof.
  intros H. unfold dict. now rewrite (dict_fold_distinct row []).
Qed.

End RenderFacts.

Module Render.
Import SQLAlchemy SQL Spec Notions LiteralFacts RenderFacts ExecuteFacts.

(** X5: [execute] does not tell a parameter [None] from a parameter that is
    the NULL object: it binds NULL for both, so the two calls have the same
    outcome and the same effects. *)
Theorem None_parameter_is_NULL
    (sa : Library) (major : Z) (text : string)
    (params : list (string * PyValue)) (w : World sa) :
  execute sa major text (null_for_None params) w
  = execute sa major text params w.
Proof.
  unfold execute, execute_try. now rewrite bind_parameters_null_for_None.
Qed.

(** X6: [None] is NULL as a whole parameter only.  Inside a list it is not
    translated, and a list is not rendered inside a list: a list with such
    an element raises [RuntimeError("unsupported value")]. *)
Theorem None_or_list_inside_list_is_unsupported
    (major : Z) (d : Dialect) (items : list PyValue) (v : PyValue) :
  In v items ->
  v = PyNone \/ (exists nested, v = PyList nested) ->
  process_literal_param major (PyList items) d = Raise unsupported_value.
Proof.
  intros Hin Hv. simpl.
  pose proof (comprehension_supported major d items) as H.
  destruct (comprehension (process major d) items) as [rs|e]; simpl.
  - rewrite forallb_forall in H. specialize (H v Hin).
    destruct Hv as [->|[nested ->]]; discriminate H.
  - destruct H as [_ ->]. reflexivity.
Qed.

Lemma None_or_list_inside_list_is_unsupported_witness :
  process_literal_param 3 (PyList [PyInt 1; PyNone]) Sample.dialect
  = Raise unsupported_value /\
  process_literal_param 3 (PyList [PyList []]) Sample.dialect
  = Raise unsupported_value.
Proof.
  split.
  - apply (None_or_list_inside_list_is_unsupported 3 Sample.dialect
             [PyInt 1; PyNone] PyNone); [simpl; auto | now left].
  - apply (None_or_list_inside_list_is_unsupported 3 Sample.dialect
             [PyList []] (PyList [])); [simpl; auto | right; now exists []].
Defined.

(** X7: the literal of a list.  The empty list gives the empty text; a list
    of one element gives what the element gives; and the literal of the
    concatenation of two lists that are not empty is the two literals with
    a comma and a space between them. *)
Theorem list_literal_composes (major : Z) (d : Dialect) :
  process_literal_param major (PyList []) d = Return "" /\
  (forall v,
     process_literal_param major (PyList [v]) d = process major d v) /\
  (forall l1 l2 s1 s2,
     l1 <> [] -> l2 <> [] ->
     process_literal_param major (PyList l1) d = Return s1 ->
     process_literal_param major (PyList l2) d = Return s2 ->
     process_literal_param major (PyList (l1 ++ l2)) d
     = Return (s1 ++ ", " ++ s2)).
Proof.
  split; [reflexivity | split].
  - intros v. simpl. now destruct (process major d v).
  - intros l1 l2 s1 s2 H1 H2. simpl. rewrite comprehension_app.
    destruct (comprehension (process major d) l1) as [r1|] eqn:E1;
      simpl; [|discriminate].
    destruct (comprehension (process major d) l2) as [r2|] eqn:E2;
      simpl; [|discriminate].
    intros [= <-] [= <-]. f_equal. apply concat_app.
    + apply nonempty_length. rewrite (comprehension_length _ _ _ E1).
      now apply nonempty_length.
    + apply nonempty_length. rewrite (comprehension_length _ _ _ E2).
      now apply nonempty_length.
Qed.

Lemma list_literal_composes_witness :
  process_literal_param 3 (PyList [PyInt 1; PyInt 2; PyStr "a"; PyNull])
    Sample.dialect
  = Return "1, 2, 'a', NULL".
Proof.
  apply (proj2 (proj2 (list_literal_composes 3 Sample.dialect))
           [PyInt 1; PyInt 2] [PyStr "a"; PyNull] "1, 2" "'a', NULL");
    first [discriminate | reflexivity].
Defined.

(** X8: a [datetime] is a [date], and the test for [date] comes first: the
    literal of a [datetime] is the literal of its date, and two moments of
    one day have the same literal.  The format with hours, minutes and
    seconds is never used. *)
Theorem datetime_literal_is_its_date
    (major : Z) (d : Dialect) (dt dt' : datetime) :
  date_part dt = date_part dt' ->
  process_literal_param major (PyDatetime dt) d
  = process_literal_param major (PyDatetime dt') d /\
  process_literal_param major (PyDatetime dt) d
  = process_literal_param major (PyDate (date_part dt')) d.
Proof.
  destruct dt as [a t], dt' as [a' t']. simpl. intros ->.
  split; reflexivity.
Qed.

Lemma datetime_literal_is_its_date_witness :
  process_literal_param 3
    (PyDatetime (mkdatetime (mkdate 2020 1 2) (mktime 3 4 5 0))) Sample.dialect
  = process_literal_param 3
      (PyDatetime (mkdatetime (mkdate 2020 1 2) (mktime 23 59 59 0)))
      Sample.dialect.
Proof.
  apply (proj1 (datetime_literal_is_its_date 3 Sample.dialect
                  (mkdatetime (mkdate 2020 1 2) (mktime 3 4 5 0))
                  (mkdatetime (mkdate 2020 1 2) (mktime 23 59 59 0))
                  eq_refl)).
Defined.

(** X9: when the fields of every row have distinct names, the list that
    [execute] returns for a SELECT holds the rows as they are: one mapping
    per row, in the order of the rows, each with the fields of its row in
    column order. *)
Theorem select_keeps_rows_and_columns
    (sa : Library) (major : Z) (text : string)
    (params : list (string * PyValue)) (w : World sa)
    (statement : string) (result : ResultProxy) (w' : World sa)
    (rows : list RowProxy) :
  executed sa major text params w statement result w' ->
  Re.search_anchored Re.SELECT_re statement = true ->
  fetchall result = Return rows ->
  Forall (fun row => NoDup (map fst row)) rows ->
  execute sa major text params w = (Return (PyList (map PyDict rows)), w').
Proof.
  intros Hx Hs Hf Hrows.
  assert (E : map dict rows = map PyDict rows).
  { clear - Hrows.
    induction Hrows as [|row rows Hrow _ IH]; simpl; [reflexivity|].
    now rewrite IH, (dict_distinct row Hrow). }
  unfold execute.
  rewrite (execute_try_executed _ _ _ _ _ _ _ _ Hx), Hs.
  unfold bind, lift, ret. now rewrite Hf, E.
Qed.

Lemma select_keeps_rows_and_columns_witness :
  fst (execute sqlite2 3 "SELECT name, id FROM t" [] (Sample.world0 sqlite2 []))
  = Return (PyList [PyDict [("name", PyStr "a"); ("id", PyInt 1)]]).
Proof.
  refine (f_equal fst
            (select_keeps_rows_and_columns sqlite2 3 _ _ _
               "SELECT name, id FROM t"
               (Sample.rows_result [[("name", PyStr "a"); ("id", PyInt 1)]])
               (mkWorld sqlite2 ["SELECT name, id FROM t"]
                  ["SELECT name, id FROM t"])
               [[("name", PyStr "a"); ("id", PyInt 1)]] _ eq_refl eq_refl _)).
  - eexists. repeat split.
  - repeat constructor; simpl; intuition discriminate.
Defined.

(** X17: the parameters are bound one after the other, in their order, and
    the first that cannot be bound ends the call: when the parameters up to
    one bind and that one does not, [execute] fails with the exception of
    that one (its handlers applied), whatever parameters follow, and the
    engine executes nothing and nothing is logged. *)
Theorem first_unbound_parameter_ends_the_call
    (sa : Library) (major : Z) (text : string)
    (before after : list (string * PyValue)) (key : string) (value : PyValue)
    (w : World sa) (clause : TextClause sa) (e : Exception) :
  bind_parameters sa (SQLAlchemy.text sa text) before = Return clause ->
  bindparams sa clause key
    (match value with PyNone => PyNull | _ => value end) = Raise e ->
  execute sa major text (before ++ (key, value) :: after) w
  = (if is_IntegrityError e then Return PyNone else Raise (clear_cause e), w).
Proof.
  intros Hb He.
  assert (H : bind_parameters sa (SQLAlchemy.text sa text)
                (before ++ (key, value) :: after)%list = Raise e).
  { rewrite bind_parameters_app, Hb. simpl. now rewrite He. }
  unfold execute. rewrite (bind_failure _ _ _ _ _ _ H).
  now destruct (is_IntegrityError e).
Qed.

Lemma first_unbound_parameter_ends_the_call_witness :
  execute Sample.sqlite 3 "SELECT * FROM t WHERE id = :id"
    [("id", PyInt 7); ("name", PyStr "a"); ("other", PyObject "bytes")]
    (Sample.world0 Sample.sqlite [])
  = (Raise (mkException ArgumentError "name" None),
     Sample.world0 Sample.sqlite []).
Proof.
  apply (first_unbound_parameter_ends_the_call Sample.sqlite 3
           "SELECT * FROM t WHERE id = :id"
           [("id", PyInt 7)] [("other", PyObject "bytes")] "name" (PyStr "a")
           (Sample.world0 Sample.sqlite [])
           (Sample.mkclause "SELECT * FROM t WHERE id = :id" [("id", PyInt 7)])
           (mkException ArgumentError "name" None));
    reflexivity.
Defined.

End Render.

(** ** The effects of [execute], its late failures, and the constructor *)

Module Effects.
Import SQLAlchemy SQL Spec Notions ExecuteFacts Constructor.

#[local] Ltac run_execute :=
  unfold execute, execute_try, bind, lift, ret,
    self_engine_execute, self_logger_debug.

(** X10: the compiled statement is logged exactly when the engine returns
    from executing it, whatever happens afterwards (rows that cannot be
    fetched, a follow-up query that fails, either handler).  When a
    parameter cannot be bound, when the statement does not compile or when
    the engine raises, nothing is logged.  Nothing else is ever logged. *)
Theorem statement_logged_iff_engine_returned
    (sa : Library) (major : Z) (text : string)
    (params : list (string * PyValue)) (w : World sa) :
  debug_log sa (snd (execute sa major text params w)) =
  match bind_parameters sa (SQLAlchemy.text sa text) params with
  | Raise _ => debug_log sa w
  | Return clause =>
      match compile sa clause (process_literal_param major) with
      | Raise _ => debug_log sa w
      | Return statement =>
          match fst (engine_execute sa (Plain statement) (connection sa w)) with
          | Raise _ => debug_log sa w
          | Return _ => (debug_log sa w ++ [statement])%list
          end
      end
  end.
Proof.
  run_execute.
  destruct (bind_parameters sa (SQLAlchemy.text sa text) params)
    as [clause|e]; simpl; [|now destruct (is_IntegrityError e)].
  destruct (compile sa clause (process_literal_param major))
    as [statement|e]; simpl; [|now destruct (is_IntegrityError e)].
  destruct (engine_execute sa (Plain statement) (connection sa w))
    as [[result|e] c]; simpl; [|now destruct (is_IntegrityError e)].
  destruct (Re.search_anchored Re.SELECT_re statement); simpl.
  - destruct (fetchall result) as [rows|e]; simpl;
      [reflexivity | now destruct (is_IntegrityError e)].
  - destruct (Re.search_anchored Re.INSERT_re statement); simpl.
    + destruct (String.eqb (get_backend_name sa) "postgresql"); simpl;
        [|reflexivity].
      destruct (engine_execute sa
                  (Clause (SQLAlchemy.text sa "SELECT LASTVAL()")) c)
        as [[result2|e] c2]; simpl; [|now destruct (is_IntegrityError e)].
      destruct (first result2) as [row|e]; simpl;
        [|now destruct (is_IntegrityError e)].
      destruct (getitem0 row) as [v|e]; simpl;
        [reflexivity | now destruct (is_IntegrityError e)].
    + now destruct (Re.search_anchored Re.DELETE_UPDATE_re statement).
Qed.

(** X11: what [execute] does to the database.  Nothing, when a parameter
    cannot be bound or the statement does not compile.  Otherwise the engine
    executes the compiled statement once, and nothing more, except after an
    INSERT on postgresql that it executed without raising: then, and only
    then, it also executes [SELECT LASTVAL()]. *)
Theorem database_effect_of_execute
    (sa : Library) (major : Z) (text : string)
    (params : list (string * PyValue)) (w : World sa) :
  connection sa (snd (execute sa major text params w)) =
  match bind_parameters sa (SQLAlchemy.text sa text) params with
  | Raise _ => connection sa w
  | Return clause =>
      match compile sa clause (process_literal_param major) with
      | Raise _ => connection sa w
      | Return statement =>
          match engine_execute sa (Plain statement) (connection sa w) with
          | (Raise _, c) => c
          | (Return _, c) =>
              match statement_class statement with
              | IsInsert =>
                  if String.eqb (get_backend_name sa) "postgresql"
                  then snd (engine_execute sa (lastval sa) c)
                  else c
              | _ => c
              end
          end
      end
  end.
Proof.
  run_execute. unfold statement_class, lastval.
  destruct (bind_parameters sa (SQLAlchemy.text sa text) params)
    as [clause|e]; simpl; [|now destruct (is_IntegrityError e)].
  destruct (compile sa clause (process_literal_param major))
    as [statement|e]; simpl; [|now destruct (is_IntegrityError e)].
  destruct (engine_execute sa (Plain statement) (connection sa w))
    as [[result|e] c]; simpl; [|now destruct (is_IntegrityError e)].
  destruct (Re.search_anchored Re.SELECT_re statement); simpl.
  - destruct (fetchall result) as [rows|e]; simpl;
      [reflexivity | now destruct (is_IntegrityError e)].
  - destruct (Re.search_anchored Re.INSERT_re statement); simpl.
    + destruct (String.eqb (get_backend_name sa) "postgresql"); simpl;
        [|reflexivity].
      destruct (engine_execute sa
                  (Clause (SQLAlchemy.text sa "SELECT LASTVAL()")) c)
        as [[result2|e] c2]; simpl; [|now destruct (is_IntegrityError e)].
      destruct (first result2) as [row|e]; simpl;
        [|now destruct (is_IntegrityError e)].
      destruct (getitem0 row) as [v|e]; simpl;
        [reflexivity | now destruct (is_IntegrityError e)].
    + now destruct (Re.search_anchored Re.DELETE_UPDATE_re statement).
Qed.

(** X12: what a result [None] tells.  [execute] returns [None] only when an
    [IntegrityError] was raised, or for a statement classified as an INSERT
    (whose key may be [None]).  So for a SELECT, an UPDATE, a DELETE and a
    statement of no class, [None] always means a violated constraint. *)
Theorem None_means_integrity_or_insert
    (sa : Library) (major : Z) (text : string)
    (params : list (string * PyValue)) (w : World sa) :
  fst (execute sa major text params w) = Return PyNone ->
  (exists e, fst (execute_try sa major text params w) = Raise e /\
             is_IntegrityError e = true) \/
  (exists statement,
     compiles_to sa major text params statement /\
     statement_class statement = IsInsert).
Proof.
  unfold execute.
  destruct (execute_try sa major text params w) as [[v|e] w1] eqn:E; simpl.
  - intros [= ->]. right.
    unfold execute_try, bind, lift, ret, self_engine_execute,
      self_logger_debug in E.
    destruct (bind_parameters sa (SQLAlchemy.text sa text) params)
      as [clause|] eqn:Eb; simpl in E; [|discriminate].
    destruct (compile sa clause (process_literal_param major))
      as [statement|] eqn:Ec; simpl in E; [|discriminate].
    exists statement. split; [now exists clause|].
    destruct (engine_execute sa (Plain statement) (connection sa w))
      as [[result|] c]; simpl in E; [|discriminate].
    unfold statement_class.
    destruct (Re.search_anchored Re.SELECT_re statement).
    + destruct (fetchall result); simpl in E; discriminate.
    + destruct (Re.search_anchored Re.INSERT_re statement); [reflexivity|].
      destruct (Re.search_anchored Re.DELETE_UPDATE_re statement);
        discriminate.
  - destruct (is_IntegrityError e) eqn:Hi; simpl; [|discriminate].
    intros _. left. now exists e.
Qed.

Lemma None_means_integrity_or_insert_witness :
  (exists e,
     fst (execute_try Sample.sqlite 3 "INSERT INTO t (id) VALUES (:id)"
            [("id", PyInt 1)] (Sample.world0 Sample.sqlite [])) = Raise e /\
     is_IntegrityError e = true) \/
  (exists statement,
     compiles_to Sample.sqlite 3 "INSERT INTO t (id) VALUES (:id)"
       [("id", PyInt 1)] statement /\
     statement_class statement = IsInsert).
Proof.
  apply (None_means_integrity_or_insert Sample.sqlite 3
           "INSERT INTO t (id) VALUES (:id)" [("id", PyInt 1)]
           (Sample.world0 Sample.sqlite [])).
  reflexivity.
Defined.

(** X13: on postgresql, an INSERT that the engine has executed is followed
    by [SELECT LASTVAL()], and the INSERT is not undone when that query
    fails.  When the query returns no row, [result.first()] is [None] and
    indexing it raises [TypeError]; when the query itself raises, its
    exception goes the way of the handlers ([None] for an
    [IntegrityError], raised again without its cause otherwise).  In both
    cases the database and the log are those after the INSERT and the
    query. *)
Theorem postgresql_insert_without_lastval
    (sa : Library) (major : Z) (text : string)
    (params : list (string * PyValue)) (w : World sa)
    (statement : string) (result : ResultProxy) (w' : World sa) :
  executed sa major text params w statement result w' ->
  statement_class statement = IsInsert ->
  get_backend_name sa = "postgresql" ->
  (forall result2 c2,
     engine_execute sa (lastval sa) (connection sa w') = (Return result2, c2) ->
     first result2 = Return None ->
     execute sa major text params w
     = (Raise (mkException TypeError
                 "'NoneType' object is not subscriptable" None),
        mkWorld sa c2 (debug_log sa w'))) /\
  (forall e c2,
     engine_execute sa (lastval sa) (connection sa w') = (Raise e, c2) ->
     execute sa major text params w
     = (if is_IntegrityError e then Return PyNone else Raise (clear_cause e),
        mkWorld sa c2 (debug_log sa w'))).
Proof.
  intros Hx Hk Hpg. unfold statement_class in Hk.
  destruct (Re.search_anchored Re.SELECT_re statement) eqn:Hs;
    [discriminate|].
  destruct (Re.search_anchored Re.INSERT_re statement) eqn:Hi;
    [|destruct (Re.search_anchored Re.DELETE_UPDATE_re statement);
      discriminate].
  unfold lastval. split.
  - intros result2 c2 He Hf. unfold execute.
    rewrite (execute_try_executed _ _ _ _ _ _ _ _ Hx), Hs, Hi, Hpg. simpl.
    unfold bind, self_engine_execute, lift. now rewrite He, Hf.
  - intros e c2 He. unfold execute.
    rewrite (execute_try_executed _ _ _ _ _ _ _ _ Hx), Hs, Hi, Hpg. simpl.
    unfold bind, self_engine_execute, lift. rewrite He.
    now destruct (is_IntegrityError e).
Qed.

Lemma postgresql_insert_without_lastval_witness :
  execute postgresql2 3 "INSERT INTO t (name) VALUES (:name)"
    [("name", PyStr "b")] (Sample.world0 postgresql2 [])
  = (Raise (mkException TypeError "'NoneType' object is not subscriptable" None),
     mkWorld postgresql2
       ["INSERT INTO t (name) VALUES ('b')"; "SELECT LASTVAL()"]
       ["INSERT INTO t (name) VALUES ('b')"]).
Proof.
  refine (proj1 (postgresql_insert_without_lastval postgresql2 3 _ _ _
                   "INSERT INTO t (name) VALUES ('b')"
                   (Sample.dml_result PyNone 1)
                   (mkWorld postgresql2
                      ["INSERT INTO t (name) VALUES ('b')"]
                      ["INSERT INTO t (name) VALUES ('b')"]) _ eq_refl eq_refl)
            (Sample.rows_result []) _ eq_refl eq_refl).
  eexists. repeat split.
Defined.

(** X14: a statement that matches the pattern of SELECT but whose result
    holds no rows to fetch (the engine executed it, and [fetchall] raises):
    [execute] fails as for any other exception, after the statement was
    executed and logged. *)
Theorem select_without_rows_to_fetch
    (sa : Library) (major : Z) (text : string)
    (params : list (string * PyValue)) (w : World sa)
    (statement : string) (result : ResultProxy) (w' : World sa)
    (e : Exception) :
  executed sa major text params w statement result w' ->
  Re.search_anchored Re.SELECT_re statement = true ->
  fetchall result = Raise e ->
  execute sa major text params w
  = (if is_IntegrityError e then Return PyNone else Raise (clear_cause e), w').
Proof.
  intros Hx Hs Hf. unfold execute.
  rewrite (execute_try_executed _ _ _ _ _ _ _ _ Hx), Hs.
  unfold bind, lift. rewrite Hf. now destruct (is_IntegrityError e).
Qed.

Lemma select_without_rows_to_fetch_witness :
  execute sqlite2 3 "SELECT 1 INTO u" [] (Sample.world0 sqlite2 [])
  = (Raise Sample.closed, mkWorld sqlite2 ["SELECT 1 INTO u"] ["SELECT 1 INTO u"]).
Proof.
  refine (select_without_rows_to_fetch sqlite2 3 _ _ _ "SELECT 1 INTO u"
            (Sample.dml_result PyNone 1)
            (mkWorld sqlite2 ["SELECT 1 INTO u"] ["SELECT 1 INTO u"])
            Sample.closed _ eq_refl eq_refl).
  eexists. repeat split.
Defined.

(** X15: the constructor keeps the engine that [create_engine] returns, and
    raises again every exception of [create_engine], an [IntegrityError]
    too (it has no handler that returns [None]): the exception raised has
    the class and the arguments of the original and no cause. *)
Theorem constructor_outcome
    (create_engine : string -> list (string * PyValue) -> Outcome Library)
    (url : string) (kwargs : list (string * PyValue)) :
  match __init__ create_engine url kwargs with
  | Return self => create_engine url kwargs = Return (self_engine self)
  | Raise e' =>
      exists e,
        create_engine url kwargs = Raise e /\
        exc_class e' = exc_class e /\ exc_args e' = exc_args e /\
        is_IntegrityError e' = is_IntegrityError e /\
        __cause__ e' = None
  end.
Proof.
  unfold __init__.
  destruct (create_engine url kwargs) as [engine|e]; [reflexivity|].
  exists e. destruct e. repeat split.
Qed.

End Effects.
